(** * Network automation pipeline: renderer, sanitizer, session gateway, driver

    A shallow embedding of [connection_tool.py] and [task-2/main.py].

    Python [str] values are sequences of Unicode code points; they are
    modelled as lists of [N].  The string methods the program calls
    ([strip], [split], [splitlines], [startswith], [replace], [join],
    [lower]) are given their CPython meaning on such lists.  The external
    collaborators (netmiko sessions, the HTTP backend, the console) are an
    interface whose calls are logged, so that statements about "how many
    times was [send_config_set] called" are statements about the log. *)

From Stdlib Require Import String Ascii.
From stdpp Require Import base option list gmap pretty.

Set Warnings "-register-all".
Local Open Scope N_scope.

(** ** Python strings *)

Abbreviation str := (list N).

Fixpoint py (s : string) : str :=
  match s with
  | EmptyString => []
  | String a r => N_of_ascii a :: py r
  end.

Definition LF : N := 10.
Definition CR : N := 13.

(** [Py_UNICODE_ISSPACE]: the code points [str.strip] removes. *)
Definition isspace (c : N) : bool :=
  ((9 <=? c) && (c <=? 13)) || ((28 <=? c) && (c <=? 32))
  || (c =? 133) || (c =? 160) || (c =? 5760)
  || ((8192 <=? c) && (c <=? 8202))
  || (c =? 8232) || (c =? 8233) || (c =? 8239) || (c =? 8287) || (c =? 12288).

(** [Py_UNICODE_ISLINEBREAK]: the code points [str.splitlines] splits at. *)
Definition islinebreak (c : N) : bool :=
  ((10 <=? c) && (c <=? 13)) || ((28 <=? c) && (c <=? 30))
  || (c =? 133) || (c =? 8232) || (c =? 8233).

Definition nonempty (s : str) : bool :=
  match s with [] => false | _ :: _ => true end.

Fixpoint lstrip (s : str) : str :=
  match s with
  | [] => []
  | c :: r => if isspace c then lstrip r else s
  end.

Fixpoint rstrip (s : str) : str :=
  match s with
  | [] => []
  | c :: r =>
      match rstrip r with
      | [] => if isspace c then [] else [c]
      | r' => c :: r'
      end
  end.

(** [s.strip()] *)
Definition strip (s : str) : str := rstrip (lstrip s).

(** [s.startswith(p)] *)
Fixpoint startswith (p s : str) : bool :=
  match p, s with
  | [], _ => true
  | _ :: _, [] => false
  | a :: p', b :: s' => (a =? b) && startswith p' s'
  end.

(** [s.split(sep)] for a one-character separator: never returns the empty
    list, and a trailing separator yields a trailing empty field. *)
Fixpoint split_char (sep : N) (s : str) : list str :=
  match s with
  | [] => [[]]
  | c :: r =>
      if c =? sep then [] :: split_char sep r
      else match split_char sep r with
           | l :: ls => (c :: l) :: ls
           | [] => [[c]]
           end
  end.

(** [s.splitlines()]: breaks at every line boundary, treats CR LF as one
    boundary, and yields no final empty line after a trailing boundary. *)
Fixpoint splitlines (s : str) : list str :=
  match s with
  | [] => []
  | c :: r =>
      let same_line :=
        match splitlines r with
        | l :: ls => (c :: l) :: ls
        | [] => [[c]]
        end in
      match r with
      | c2 :: r2 =>
          if (c =? CR) && (c2 =? LF) then [] :: splitlines r2
          else if islinebreak c then [] :: splitlines r
          else same_line
      | [] => if islinebreak c then [[]] else same_line
      end
  end.

(** [s.replace(old, new)]: every non-overlapping occurrence, scanning from
    the left.  [skip] counts the characters of a match still to be passed
    over.  With an empty [old] Python inserts [new] around every character. *)
Fixpoint replace_from (old new : str) (skip : nat) (s : str) : str :=
  match s with
  | [] => []
  | c :: r =>
      match skip with
      | S k => replace_from old new k r
      | O =>
          if startswith old s
          then new ++ replace_from old new (Nat.pred (length old)) r
          else c :: replace_from old new 0 r
      end
  end.

Definition replace (old new s : str) : str :=
  match old with
  | [] => new ++ concat (map (fun c => c :: new) s)
  | _ :: _ => replace_from old new 0 s
  end.

(** [sep.join(l)] *)
Fixpoint join (sep : str) (l : list str) : str :=
  match l with
  | [] => []
  | [x] => x
  | x :: rest => x ++ sep ++ join sep rest
  end.

(** [needle in hay] *)
Fixpoint contains (needle hay : str) : bool :=
  startswith needle hay ||
  match hay with
  | [] => false
  | _ :: r => contains needle r
  end.

(** ** task-2/main.py: the generated-text sanitizer *)

Definition prefix_Router : str := py "Router(config)#".
Definition prefix_config : str := py "(config)#".
Definition prefix_R1 : str := py "R1(config)#".

(** The body of the [for line in lines] loop, as a step on [commands]. *)
Definition sanitize_step (commands : list str) (line : str) : list str :=
  let line := strip line in
  if nonempty line && negb (startswith (py "#") line)
     && negb (startswith (py "!") line)
  then
    let line :=
      if startswith prefix_Router line
      then strip (replace prefix_Router [] line)
      else if startswith prefix_config line
      then strip (replace prefix_config [] line)
      else if startswith prefix_R1 line
      then strip (replace prefix_R1 [] line)
      else line in
    if nonempty line then commands ++ [line] else commands
  else commands.

Definition process_generated_config (config : str) : list str :=
  if negb (nonempty config) then []
  else
    let lines := split_char LF (strip config) in
    fold_left sanitize_step lines [].

(** ** connection_tool.py: the command renderer *)

(** A compiled Jinja2 template: literal text and [{{ name }}] expressions.
    Rendering writes each expression's value as it is (no autoescape); a
    name missing from the context renders as nothing. *)
Inductive segment :=
| Text (s : str)
| Expr (name : str).

Definition render_segment (vars : gmap str str) (g : segment) : str :=
  match g with
  | Text s => s
  | Expr name => default [] (vars !! name)
  end.

Definition render (template : list segment) (vars : gmap str str) : str :=
  concat (map (render_segment vars) template).

Definition template_create : list segment :=
  [ Text (LF :: py "        interface "); Expr (py "interface");
    Text (LF :: py "            ip address "); Expr (py "ip_address");
    Text (py " "); Expr (py "subnet");
    Text (LF :: py "            no shutdown" ++ LF :: py "        ") ].

Definition template_delete : list segment :=
  [ Text (LF :: py "        interface "); Expr (py "interface");
    Text (LF :: py "            no ip address"
          ++ LF :: py "            shutdown" ++ LF :: py "        ") ].

(** The [if action == "create"] statement: the variables and the template
    it selects. *)
Definition interface_template
    (action interface ip_address subnet_mask : str)
  : gmap str str * list segment :=
  if decide (action = py "create")
  then (<[py "interface" := interface]>
          (<[py "ip_address" := ip_address]>
             (<[py "subnet" := subnet_mask]> ∅)),
        template_create)
  else (<[py "interface" := interface]> ∅, template_delete).

Definition render_interface_config
    (action interface ip_address subnet_mask : str) : list str :=
  let '(config_vars, template_string) :=
    interface_template action interface ip_address subnet_mask in
  let rendered_config := render template_string config_vars in
  map strip (List.filter (fun line => nonempty (strip line))
                         (splitlines rendered_config)).

(** ** Effects: exceptions, the call log, the external interface *)

(** A raised exception: whether it is an instance of [Exception] (what
    [except Exception] catches; [KeyboardInterrupt] and [SystemExit] are
    not) and its [str()]. *)
Record exc := Exc { is_Exception : bool; exc_str : str }.

Inductive res (A : Type) :=
| Ret (a : A)
| Raise (e : exc).
Arguments Ret {A} a.
Arguments Raise {A} e.

(** Decoded JSON, as [response.json()] returns it. *)
Inductive pyval :=
| PNone
| PBool (b : bool)
| PInt (z : Z)
| PFloat (text : str)
| PStr (s : str)
| PList (l : list pyval)
| PDict (items : list (str * pyval)).

(** [d.get(key)] on a decoded object; a repeated key keeps its last value. *)
Fixpoint dict_get (key : str) (items : list (str * pyval)) : option pyval :=
  match items with
  | [] => None
  | (k, v) :: r =>
      match dict_get key r with
      | Some v' => Some v'
      | None => if decide (k = key) then Some v else None
      end
  end.

Definition type_name (v : pyval) : str :=
  match v with
  | PNone => py "NoneType"
  | PBool _ => py "bool"
  | PInt _ => py "int"
  | PFloat _ => py "float"
  | PStr _ => py "str"
  | PList _ => py "list"
  | PDict _ => py "dict"
  end.

Definition AttributeError (v : pyval) (attr : str) : exc :=
  Exc true (py "'" ++ type_name v ++ py "' object has no attribute '"
            ++ attr ++ py "'").

Definition KeyError (key : str) : exc :=
  Exc true (py "'" ++ key ++ py "'").

(** The JSON body of the request to the text-generation backend. *)
Record payload := Payload {
  payload_model : str;
  payload_prompt : str;
  payload_system : str;
  payload_stream : bool
}.

(** A [requests.Response]: what its two methods do when called. *)
Record response := Response {
  raise_for_status : res unit;
  json : res pyval
}.

(** Calls that leave the program, in the order they are made.  Sessions
    are identified by a handle. *)
Inductive event :=
| ConnectHandler (device : gmap str str)
| Enable (conn : N)
| SendConfigSet (conn : N) (commands : list str)
| Disconnect (conn : N)
| Echo (s : str)
| Print (s : str)
| Input (prompt : str)
| Post (url : str) (body : payload) (timeout : N)
| ReadInventory (filename : str).

(** The collaborators, as an interface a test double can implement: each
    call sees the current state of the outside world and returns or raises. *)
Class Platform := {
  World : Type;
  netmiko_ConnectHandler : gmap str str -> World -> res N * World;
  netmiko_enable : N -> World -> res unit * World;
  netmiko_send_config_set : N -> list str -> World -> res str * World;
  netmiko_disconnect : N -> World -> res unit * World;
  requests_post : str -> payload -> N -> World -> res response * World;
  builtin_input : str -> World -> res str * World;
  csv_DictReader : str -> World -> res (list (gmap str str)) * World
}.

Section Effects.
Context `{Platform}.

Record state := State { world : World; log : list event }.

Definition M (A : Type) : Type := state -> res A * state.

#[export] Instance M_ret : MRet M := fun A a s => (Ret a, s).

#[export] Instance M_bind : MBind M := fun A B f m s =>
  match m s with
  | (Ret a, s') => f a s'
  | (Raise e, s') => (Raise e, s')
  end.

Definition raise {A} (e : exc) : M A := fun s => (Raise e, s).

(** An external call: logged, then answered by the platform. *)
Definition call {A} (ev : event) (f : World -> res A * World) : M A :=
  fun s =>
    let '(r, w) := f (world s) in
    (r, State w (log s ++ [ev])).

(** [try: body / except Exception as e: handler e] *)
Definition try_except {A} (body : M A) (handler : exc -> M A) : M A :=
  fun s =>
    match body s with
    | (Ret a, s') => (Ret a, s')
    | (Raise e, s') =>
        if is_Exception e then handler e s' else (Raise e, s')
    end.

(** [try: body / finally: cleanup]: the cleanup runs however the body
    ends; an exception raised by the cleanup replaces the body's outcome. *)
Definition try_finally {A} (body : M A) (cleanup : M unit) : M A :=
  fun s =>
    let '(r, s') := body s in
    match cleanup s' with
    | (Ret _, s'') => (r, s'')
    | (Raise e, s'') => (Raise e, s'')
    end.

Definition echo (s : str) : M unit :=
  call (Echo s) (fun w => (Ret tt, w)).

Definition print (s : str) : M unit :=
  call (Print s) (fun w => (Ret tt, w)).

Definition input (prompt : str) : M str :=
  call (Input prompt) (builtin_input prompt).

(** [for x in l: body x] *)
Fixpoint for_each {A} (body : A -> M unit) (l : list A) : M unit :=
  match l with
  | [] => mret tt
  | x :: rest => body x ;; for_each body rest
  end.

(** How an f-string shows the result of [d.get(key)]. *)
Definition format_get (o : option str) : str := default (py "None") o.

End Effects.

(** ** connection_tool.py: the session gateway *)

Section ConnectionTool.
Context `{Platform}.

Definition connect_device (device : gmap str str) : M (option N) :=
  try_except
    (conn ← call (ConnectHandler device) (netmiko_ConnectHandler device);
     call (Enable conn) (netmiko_enable conn);;
     mret (Some conn))
    (fun e =>
       echo (py "Error connecting to device "
             ++ format_get (device !! py "host") ++ py ": " ++ exc_str e);;
       mret None).

(** [dev_data[key]] *)
Definition getitem (dev_data : gmap str str) (key : str) : M str :=
  match dev_data !! key with
  | Some v => mret v
  | None => raise (KeyError key)
  end.

Definition get_conn_info (dev_data : gmap str str) : M (gmap str str) :=
  host ← getitem dev_data (py "Management IP");
  username ← getitem dev_data (py "Username");
  password ← getitem dev_data (py "Password");
  secret ← getitem dev_data (py "Password");
  mret (<[py "device_type" := py "cisco_ios"]>
          (<[py "host" := host]>
             (<[py "username" := username]>
                (<[py "password" := password]>
                   (<[py "secret" := secret]> ∅))))).

Definition send_config (device : gmap str str) (commands : list str) : M str :=
  conn ← connect_device device;
  match conn with
  | None => mret (py "Connection failed; configuration not sent.")
  | Some conn =>
      try_finally
        (try_except
           (call (SendConfigSet conn commands)
                 (netmiko_send_config_set conn commands))
           (fun e => mret (py "Error sending configuration: " ++ exc_str e)))
        (call (Disconnect conn) (netmiko_disconnect conn))
  end.

Definition establish_connection (device_data : gmap str str) : M (option N) :=
  conn_info ← get_conn_info device_data;
  connect_device conn_info.

(** The dict [send_commands] returns: ["success"] is always present,
    ["output"] and ["error"] only on the corresponding branch. *)
Record send_result := SendResult {
  success : bool;
  output : option str;
  error : option str
}.

Definition send_commands (connection : option N) (commands : list str)
  : M send_result :=
  match connection with
  | None => mret (SendResult false None (Some (py "No active connection")))
  | Some connection =>
      try_except
        (output ← call (SendConfigSet connection commands)
                       (netmiko_send_config_set connection commands);
         mret (SendResult true (Some output) None))
        (fun e => mret (SendResult false None (Some (exc_str e))))
  end.

End ConnectionTool.

(** ** task-2/main.py: generation, deployment, the driver *)

Section Main.
Context `{Platform}.

Definition ollama_url : str := py "http://localhost:11434/api/generate".

Definition system_instruction : str :=
  py "You are a network automation assistant. Generate only valid Cisco IOS XE CLI commands. "
  ++ py "Ensure the output is a full multi-line CLI configuration without explanations, comments, "
  ++ py "Markdown formatting, or any extra text. Only return raw Cisco IOS commands.".

Definition default_model : str := py "codellama:7b".

Definition query_ollama (prompt model : str) : M pyval :=
  let url := ollama_url in
  let payload := Payload model prompt system_instruction false in
  try_except
    (response ← call (Post url payload 60) (requests_post url payload 60);
     (fun s => (raise_for_status response, s));;
     result ← (fun s => (json response, s));
     match result with
     | PDict items =>
         mret (default (PStr (py "No response generated"))
                       (dict_get (py "response") items))
     | _ => raise (AttributeError result (py "get"))
     end)
    (fun e => mret (PStr (py "Error communicating with Ollama: " ++ exc_str e))).

(** [d.get(key, fallback)] *)
Definition get_default (d : gmap str str) (key fallback : str) : str :=
  default fallback (d !! key).

Definition generation_prompt (device_info : gmap str str) (requirements : str)
  : str :=
  LF :: py "    Generate a Cisco IOS XE configuration for the following device and requirements:"
  ++ LF :: LF :: py "    Device Information:"
  ++ LF :: py "    - Name: " ++ get_default device_info (py "Name") (py "Unknown")
  ++ LF :: py "    - Type: Router"
  ++ LF :: py "    - Management IP: "
  ++ get_default device_info (py "Management IP") (py "Unknown")
  ++ LF :: py "    - Location: "
  ++ get_default device_info (py "Description") (py "Unknown")
  ++ LF :: LF :: py "    Requirements:"
  ++ LF :: py "    " ++ requirements
  ++ LF :: LF :: py "    Please provide only the Cisco IOS XE configuration commands, without explanations or comments."
  ++ LF :: py "    Start with the interface configuration and include all necessary commands."
  ++ LF :: py "    ".

(** Returns [None] on a generation failure, the generated text otherwise;
    a backend value that is not a [str] has no [startswith]. *)
Definition generate_device_config
    (device_info : gmap str str) (requirements : str) : M (option str) :=
  let prompt := generation_prompt device_info requirements in
  print (py "Generating configuration for "
         ++ get_default device_info (py "Name") (py "device") ++ py "...");;
  print (py "This may take a few moments...");;
  generated_config ← query_ollama prompt default_model;
  match generated_config with
  | PStr text =>
      if startswith (py "Error") text
      then print (py "Configuration generation failed: " ++ text);;
           mret None
      else print (py "Configuration generated successfully!");;
           mret (Some text)
  | _ => raise (AttributeError generated_config (py "startswith"))
  end.

(** The function between the ['''] markers of TASK 3. *)
Definition deploy_configuration
    (device_data : gmap str str) (config_commands : list str) : M bool :=
  connection ← establish_connection device_data;
  match connection with
  | None =>
      print (py "Failed to establish device connection");;
      mret false
  | Some _ =>
      result ← send_commands connection config_commands;
      if success result
      then
        print (py "Configuration deployment completed successfully");;
        (match output result with
         | Some ((_ :: _) as out) =>
             print (py "Device response:");; print out
         | _ => mret tt
         end);;
        mret true
      else
        print (py "Configuration deployment failed: "
               ++ default (py "Unknown error") (error result));;
        mret false
  end.

Definition read_inventory (filename : str) : M (list (gmap str str)) :=
  call (ReadInventory filename) (csv_DictReader filename).

(** [s.lower()] on the letters A to Z.  No code point outside that range
    lowers to ['y'], so the comparison in [main] is exact. *)
Definition lower (s : str) : str :=
  map (fun c => if (65 <=? c) && (c <=? 90) then c + 32 else c) s.

(** The body of [for device_data in inventory]. *)
Definition main_loop_body (requirements : str) (device_data : gmap str str)
  : M unit :=
  let device_name := get_default device_data (py "Name") (py "Unknown") in
  print (LF :: replicate 50 61);;
  print (py "Processing device: " ++ device_name);;
  print (replicate 50 61);;
  generated_config ← generate_device_config device_data requirements;
  (match generated_config with
   | Some ((_ :: _) as generated_config) =>
       print (LF :: py "Generated configuration for " ++ device_name ++ py ":");;
       print (replicate 40 45);;
       print generated_config;;
       print (replicate 40 45);;
       let config_commands := process_generated_config generated_config in
       match config_commands with
       | _ :: _ =>
           print (LF :: py "Processed "
                  ++ py (pretty (length config_commands))
                  ++ py " configuration commands");;
           apply ← input (LF :: py "Apply configuration to " ++ device_name
                          ++ py "? (y/N): ");
           if decide (lower apply = py "y")
           then print (py "Configuration deployment will be implemented in Task 3")
           else print (py "Configuration saved but not applied")
       | [] => print (py "No valid configuration commands generated")
       end
   | _ => mret tt
   end);;
  print (LF :: py "Completed processing for " ++ device_name).

Definition main : M unit :=
  print (py "Starting AI-powered network automation...");;
  loaded ← try_except
    (inventory ← read_inventory (py "inventory.csv");
     print (py "Loaded " ++ py (pretty (length inventory))
            ++ py " devices from inventory");;
     mret (Some inventory))
    (fun e =>
       print (py "Error loading inventory: " ++ exc_str e);;
       mret None);
  match loaded with
  | None => mret tt
  | Some inventory =>
      print (LF :: py "Enter your network configuration requirements:");;
      print (py "Example: Configure interface GigabitEthernet0/1 with IP 192.168.1.1/24 and enable it");;
      requirements ← input (py "Requirements: ");
      if negb (nonempty (strip requirements))
      then print (py "No requirements provided. Exiting.")
      else for_each (main_loop_body requirements) inventory
  end.

End Main.

(** ** inventory_tool.py: the inventory as a list of records *)

(** [get_device_data]: the first record whose ["Name"] is [device_name];
    [device["Name"]] raises on a record without that key. *)
Fixpoint get_device_data (inventory : list (gmap str str)) (device_name : str)
  : res (option (gmap str str)) :=
  match inventory with
  | [] => Ret None
  | device :: rest =>
      match device !! py "Name" with
      | None => Raise (KeyError (py "Name"))
      | Some name =>
          if decide (name = device_name) then Ret (Some device)
          else get_device_data rest device_name
      end
  end.

(** [add_device]: the list after [inventory.append(new_device)]. *)
Definition add_device (inventory : list (gmap str str))
    (new_device : gmap str str) : list (gmap str str) :=
  inventory ++ [new_device].

(** [l.remove(x)]: drops the first element equal to [x]; [ValueError] when
    there is none. *)
Fixpoint list_remove (x : gmap str str) (l : list (gmap str str))
  : res (list (gmap str str)) :=
  match l with
  | [] => Raise (Exc true (py "list.remove(x): x not in list"))
  | y :: r =>
      if decide (y = x) then Ret r
      else match list_remove x r with
           | Ret r' => Ret (y :: r')
           | Raise e => Raise e
           end
  end.

(** The [for device in inventory] loop of [remove_device], which removes
    from the list it is iterating over.  The list iterator keeps an index:
    each turn reads [inventory[index]] from the list as it is then, and
    stops once the index is past the end.  Returns how the loop ended and
    the list as it was left; [None] only if [fuel] turns do not reach the
    end. *)
Fixpoint remove_device_from (fuel : nat) (inventory : list (gmap str str))
    (device_name : str) (index : nat)
  : option (res unit * list (gmap str str)) :=
  match fuel with
  | O => None
  | S fuel' =>
      match inventory !! index with
      | None => Some (Ret tt, inventory)
      | Some device =>
          match device !! py "Name" with
          | None => Some (Raise (KeyError (py "Name")), inventory)
          | Some name =>
              if decide (name = device_name)
              then match list_remove device inventory with
                   | Ret inventory' =>
                       remove_device_from fuel' inventory' device_name (S index)
                   | Raise e => Some (Raise e, inventory)
                   end
              else remove_device_from fuel' inventory device_name (S index)
          end
      end
  end.

Definition remove_device (inventory : list (gmap str str)) (device_name : str)
  : option (res unit * list (gmap str str)) :=
  remove_device_from (S (length inventory)) inventory device_name 0.

(** ** connection_tool.py: the command line *)

(** What the command line needs beyond [Platform]: a show command on an
    open session, and [click.prompt] (which returns the default on an empty
    answer when it has one). *)
Class Terminal `{Platform} := {
  netmiko_send_command : N -> str -> World -> res str * World;
  click_prompt : str -> option str -> World -> res str * World
}.

Section CommandLine.
Context `{Terminal}.

(** [conn.send_command(command)].  The log has no entry for a show
    command: the call is answered by the platform and changes the world
    only. *)
Definition send_command (conn : N) (command : str) : M str :=
  fun s =>
    let '(r, w) := netmiko_send_command conn command (world s) in
    (r, State w (log s)).

(** [click.prompt(text, default=default)], logged as a question to the
    operator. *)
Definition ask (text : str) (default : option str) : M str :=
  call (Input text) (click_prompt text default).

Definition get_interface_brief (device : gmap str str) : M str :=
  conn ← connect_device device;
  match conn with
  | None => mret (py "Connection failed; cannot retrieve interface brief.")
  | Some conn =>
      try_finally
        (try_except
           (send_command conn (py "show ip interface brief"))
           (fun e => mret (py "Error retrieving interface brief: " ++ exc_str e)))
        (call (Disconnect conn) (netmiko_disconnect conn))
  end.

(** The two templates written out in [configure]: those of
    [render_interface_config] with another indentation. *)
Definition configure_template_create : list segment :=
  [ Text (LF :: py "        interface "); Expr (py "interface");
    Text (LF :: py "         ip address "); Expr (py "ip_address");
    Text (py " "); Expr (py "subnet");
    Text (LF :: py "         no shutdown" ++ LF :: py "        ") ].

Definition configure_template_delete : list segment :=
  [ Text (LF :: py "        interface "); Expr (py "interface");
    Text (LF :: py "         no ip address"
          ++ LF :: py "         shutdown" ++ LF :: py "        ") ].

(** The [configure] command, from its parsed options on. *)
Definition configure (inventory device action interface : str) : M unit :=
  inv_data ← read_inventory inventory;
  dev_data ← (fun s => (get_device_data inv_data device, s));
  match dev_data with
  | None => echo (py "Device " ++ device ++ py " not found in inventory.")
  | Some dev_data =>
      conn_info ← get_conn_info dev_data;
      '(cfg, tmpl) ←
        (if decide (action = py "create")
         then
           ip ← ask (py "IP address") None;
           subnet ← ask (py "Subnet mask") (Some (py "255.255.255.0"));
           mret (<[py "interface" := interface]>
                   (<[py "ip_address" := ip]>
                      (<[py "subnet" := subnet]> (∅ : gmap str str))),
                 configure_template_create)
         else
           mret (<[py "interface" := interface]> (∅ : gmap str str),
                 configure_template_delete));
      let rendered := render tmpl cfg in
      let cmds := map strip (List.filter (fun line => nonempty (strip line))
                                         (splitlines rendered)) in
      echo (LF :: py "Sending configuration to " ++ device ++ py ":");;
      echo (join [LF] cmds);;
      try_except
        (output ← send_config conn_info cmds;
         echo (py "Output from " ++ device ++ py ":" ++ LF :: output))
        (fun e => echo (py "Error on " ++ device ++ py ": " ++ exc_str e))
  end.

End CommandLine.

(** ** Vocabulary of the statements *)

(** What one raw line contributes to the command list: the loop body of
    [process_generated_config] read as a function of the line alone. *)
Definition sanitize_line (line : str) : option str :=
  match sanitize_step [] line with
  | [] => None
  | l :: _ => Some l
  end.

(** The [if]/[elif] chain of the loop body on a trimmed line. *)
Definition strip_prompt (t : str) : str :=
  if startswith prefix_Router t then strip (replace prefix_Router [] t)
  else if startswith prefix_config t then strip (replace prefix_config [] t)
  else if startswith prefix_R1 t then strip (replace prefix_R1 [] t)
  else t.

(** Glue [p] in front of the first line. *)
Definition cons_head (p : str) (ls : list str) : list str :=
  match ls with
  | [] => [p]
  | l :: ls' => (p ++ l) :: ls'
  end.

(** What one rendered line contributes: the comprehension of
    [render_interface_config]. *)
Definition render_line (line : str) : option str :=
  if nonempty (strip line) then Some (strip line) else None.

Definition no_linebreak (s : str) : Prop :=
  Forall (fun c => islinebreak c = false) s.

Definition blank (s : str) : Prop :=
  Forall (fun c => isspace c = true) s.

(** Non-empty and not ending in whitespace. *)
Definition ends_visibly (s : str) : Prop :=
  rstrip s = s /\ s <> [].

(** The CommandList invariant on one line. *)
Definition command_line (l : str) : Prop :=
  l <> [] /\ strip l = l.

(** A line a second sanitizer pass would not touch: it opens neither with
    a comment marker nor with a recognized prompt prefix. *)
Definition plain_line (l : str) : Prop :=
  startswith (py "#") l = false /\ startswith (py "!") l = false /\
  startswith prefix_Router l = false /\ startswith prefix_config l = false /\
  startswith prefix_R1 l = false.

Definition isdigit (c : N) : bool := (48 <=? c) && (c <=? 57).

Fixpoint skip_digits (s : str) : str :=
  match s with
  | [] => []
  | c :: r => if isdigit c then skip_digits r else s
  end.

(** One or more decimal digits; returns what follows them. *)
Definition number (s : str) : option str :=
  match s with
  | [] => None
  | c :: r => if isdigit c then Some (skip_digits r) else None
  end.

Definition dot (s : str) : option str :=
  match s with
  | 46 :: r => Some r
  | _ => None
  end.

(** The text opens with a dotted quad of decimal numbers. *)
Definition starts_with_ipv4 (s : str) : bool :=
  match (a ← number s; a ← dot a; b ← number a; b ← dot b;
         c ← number b; c ← dot c; number c) with
  | Some _ => true
  | None => false
  end.

(** The text has a dotted quad somewhere: an IP address or a mask. *)
Fixpoint contains_ipv4 (s : str) : bool :=
  starts_with_ipv4 s ||
  match s with
  | [] => false
  | _ :: r => contains_ipv4 r
  end.

(** Counting the calls of one kind in a log. *)
Definition count (p : event -> bool) (l : list event) : nat :=
  length (List.filter p l).

Definition is_apply (ev : event) : bool :=
  match ev with SendConfigSet _ _ => true | _ => false end.

Definition is_disconnect (ev : event) : bool :=
  match ev with Disconnect _ => true | _ => false end.

Definition is_input (ev : event) : bool :=
  match ev with Input _ => true | _ => false end.

(** A computation that never makes a call of kind [p]. *)
Definition never `{Platform} (p : event -> bool) {A} (m : M A) : Prop :=
  forall s, count p (log (m s).2) = count p (log s).

(** What [query_ollama] makes of the answer to its POST: the body of its
    [try], then its [except Exception]. *)
Definition decode (r : res response) : res pyval :=
  match r with
  | Raise e => Raise e
  | Ret response =>
      match raise_for_status response with
      | Raise e => Raise e
      | Ret _ =>
          match json response with
          | Raise e => Raise e
          | Ret (PDict items) =>
              Ret (default (PStr (py "No response generated"))
                           (dict_get (py "response") items))
          | Ret v => Raise (AttributeError v (py "get"))
          end
      end
  end.

Definition answer (r : res response) : res pyval :=
  match decode r with
  | Ret v => Ret v
  | Raise e =>
      if is_Exception e
      then Ret (PStr (py "Error communicating with Ollama: " ++ exc_str e))
      else Raise e
  end.

(** The two ways a generation fails: the exchange with the backend raised
    an [Exception], or it returned text that opens with ["Error"]. *)
Inductive generation_failure (r : res response) : str -> Prop :=
| backend_call_failed e :
    decode r = Raise e -> is_Exception e = true ->
    generation_failure r (py "Error communicating with Ollama: " ++ exc_str e)
| error_shaped_result text :
    decode r = Ret (PStr text) -> startswith (py "Error") text = true ->
    generation_failure r text.

Definition generation_payload (device_info : gmap str str) (requirements : str)
  : payload :=
  Payload default_model (generation_prompt device_info requirements)
          system_instruction false.

(** Everything [main] logs for a device whose generation failed with the
    text [text]: the banner, the request, the failure, the completion.  No
    prompt to the operator, no session. *)
Definition skipped_device_log
    (device_data : gmap str str) (requirements text : str) : list event :=
  [ Print (LF :: replicate 50 61);
    Print (py "Processing device: "
           ++ get_default device_data (py "Name") (py "Unknown"));
    Print (replicate 50 61);
    Print (py "Generating configuration for "
           ++ get_default device_data (py "Name") (py "device") ++ py "...");
    Print (py "This may take a few moments...");
    Post ollama_url (generation_payload device_data requirements) 60;
    Print (py "Configuration generation failed: " ++ text);
    Print (LF :: py "Completed processing for "
           ++ get_default device_data (py "Name") (py "Unknown")) ].

Definition is_open (ev : event) : bool :=
  match ev with ConnectHandler _ => true | _ => false end.

Definition is_post (ev : event) : bool :=
  match ev with Post _ _ _ => true | _ => false end.

(** Every record has a ["Name"], and it is not [name]. *)
Definition other_names (name : str) (l : list (gmap str str)) : Prop :=
  Forall (fun d => exists m, d !! py "Name" = Some m /\ m <> name) l.

(** The commands a text yields: its non-blank lines, stripped. *)
Definition commands_of (text : str) : list str :=
  omap render_line (splitlines text).

(** How [configure] ends once the commands are rendered: it echoes them,
    deploys them with [send_config] and echoes the outcome; an [Exception]
    of the deployment is echoed, not raised. *)
Definition configure_deploys `{Platform} (device : str) (conn_info : gmap str str)
    (cmds : list str) (s : state) : res unit * state :=
  let s2 :=
    State (world s)
      (log s ++ [Echo (LF :: py "Sending configuration to " ++ device ++ py ":");
                 Echo (join [LF] cmds)]) in
  let '(r, s3) := send_config conn_info cmds s2 in
  match r with
  | Ret output =>
      (Ret tt,
       State (world s3)
         (log s3 ++ [Echo (py "Output from " ++ device ++ py ":"
                           ++ LF :: output)]))
  | Raise e =>
      if is_Exception e
      then (Ret tt,
            State (world s3)
              (log s3 ++ [Echo (py "Error on " ++ device ++ py ": "
                                ++ exc_str e)]))
      else (Raise e, s3)
  end.

(** ** Test doubles *)

(** A scripted platform: [open_result] and [apply_result] answer every
    connection attempt and every [send_config_set]; the world is the queue
    of backend answers still to be given; the operator always types
    [reply]. *)
Definition stub (open_result : res N) (apply_result : res str) (reply : str)
  : Platform :=
  {| World := list (res response);
     netmiko_ConnectHandler := fun _ w => (open_result, w);
     netmiko_enable := fun _ w => (Ret tt, w);
     netmiko_send_config_set := fun _ _ w => (apply_result, w);
     netmiko_disconnect := fun _ w => (Ret tt, w);
     requests_post := fun _ _ _ w =>
       match w with
       | [] => (Raise (Exc true (py "connection refused")), [])
       | r :: w' => (r, w')
       end;
     builtin_input := fun _ w => (Ret reply, w);
     csv_DictReader := fun _ w => (Ret [], w) |}.

(** The device answers and applies; it answers and refuses the commands;
    it cannot be reached. *)
Definition reachable : Platform := stub (Ret 7) (Ret []) (py "n").

Definition refusing : Platform :=
  stub (Ret 7) (Raise (Exc true (py "refused"))) (py "n").

Definition unreachable : Platform :=
  stub (Raise (Exc true (py "timed out"))) (Ret []) (py "n").

(** A 200 answer carrying [text] as the generated response. *)
Definition generated (text : str) : res response :=
  Ret (Response (Ret tt) (Ret (PDict [(py "response", PStr text)]))).

(** The backend generates for the first device, times out for the second
    and generates for the third. *)
Definition backend_script : list (res response) :=
  [ generated (py "interface Gi0/1" ++ LF :: py " no shutdown");
    Raise (Exc true (py "timed out"));
    generated (py "interface Gi0/3") ].

Definition R1_record : gmap str str :=
  <[py "Name" := py "R1"]>
    (<[py "Management IP" := py "10.0.0.1"]>
       (<[py "Username" := py "admin"]>
          (<[py "Password" := py "x"]>
             (<[py "Description" := py "core"]> ∅)))).

(** What [get_conn_info] makes of [R1_record]. *)
Definition R1_conn_info : gmap str str :=
  <[py "device_type" := py "cisco_ios"]>
    (<[py "host" := py "10.0.0.1"]>
       (<[py "username" := py "admin"]>
          (<[py "password" := py "x"]>
             (<[py "secret" := py "x"]> ∅)))).

Definition named (name : str) : gmap str str :=
  <[py "Name" := name]> R1_record.

(** A platform that follows a script: one answer for each kind of call.
    The world is again the queue of backend answers. *)
Record script := Script {
  on_open : res N;
  on_enable : res unit;
  on_apply : res str;
  on_close : res unit;
  on_read : res (list (gmap str str));
  on_input : res str
}.

Definition scripted (sc : script) : Platform :=
  {| World := list (res response);
     netmiko_ConnectHandler := fun _ w => (on_open sc, w);
     netmiko_enable := fun _ w => (on_enable sc, w);
     netmiko_send_config_set := fun _ _ w => (on_apply sc, w);
     netmiko_disconnect := fun _ w => (on_close sc, w);
     requests_post := fun _ _ _ w =>
       match w with
       | [] => (Raise (Exc true (py "connection refused")), [])
       | r :: w' => (r, w')
       end;
     builtin_input := fun _ w => (on_input sc, w);
     csv_DictReader := fun _ w => (on_read sc, w) |}.

(** A lab with one router that answers, applies and closes. *)
Definition lab : script :=
  Script (Ret 7) (Ret tt) (Ret (py "R1(config)#")) (Ret tt)
         (Ret [R1_record]) (Ret (py "y")).

(** The lab with one thing going wrong: [enable] is refused; the session
    cannot be closed; the inventory file cannot be read; the operator types
    only spaces. *)
Definition lab_no_enable : script :=
  Script (Ret 7) (Raise (Exc true (py "enable failed"))) (Ret [])
         (Ret tt) (Ret [R1_record]) (Ret (py "y")).

Definition lab_stuck_session : script :=
  Script (Ret 7) (Ret tt) (Ret (py "R1(config)#"))
         (Raise (Exc true (py "socket closed"))) (Ret [R1_record])
         (Ret (py "y")).

Definition lab_unreadable : script :=
  Script (Ret 7) (Ret tt) (Ret []) (Ret tt)
         (Raise (Exc true (py "No such file or directory")))
         (Ret (py "y")).

Definition lab_silent : script :=
  Script (Ret 7) (Ret tt) (Ret []) (Ret tt) (Ret [R1_record])
         (Ret (py "   ")).

(** A 200 answer whose body is [body]. *)
Definition answered (body : pyval) : res response :=
  Ret (Response (Ret tt) (Ret body)).

(** The operator at the command line always types [typed]; a show command
    is answered with [brief]. *)
Definition terminal (P : Platform) (typed : str) (brief : res str)
  : @Terminal P :=
  {| netmiko_send_command := fun _ _ w => (brief, w);
     click_prompt := fun _ _ w => (Ret typed, w) |}.

(** * Properties *)

(** ** Characters and trimming *)

Ltac bool_arith :=
  rewrite ?orb_true_iff, ?andb_true_iff, ?orb_false_iff, ?andb_false_iff,
    ?N.leb_le, ?N.eqb_eq, ?N.leb_gt, ?N.eqb_neq in *.

Lemma islinebreak_isspace c : islinebreak c = true -> isspace c = true.
Proof. unfold islinebreak, isspace. bool_arith. lia. Qed.

Lemma blank_nil : blank [].
Proof. constructor. Qed.

Lemma lstrip_blank s : blank s -> lstrip s = [].
Proof. induction 1 as [|c r Hc _ IH]; simpl; [done|]. by rewrite Hc. Qed.

Lemma rstrip_blank s : blank s -> rstrip s = [].
Proof. induction 1 as [|c r Hc _ IH]; simpl; [done|]. by rewrite IH, Hc. Qed.

Lemma rstrip_nil_blank s : rstrip s = [] -> blank s.
Proof.
  induction s as [|c r IH]; simpl; [constructor|].
  destruct (rstrip r) eqn:Hr; [|done].
  destruct (isspace c) eqn:Hc; [|done].
  intros _. constructor; auto. by apply IH.
Qed.

Lemma strip_blank s : blank s -> strip s = [].
Proof. intros Hs. unfold strip. by rewrite lstrip_blank. Qed.

(** [rstrip] through a concatenation: the right part decides. *)
Lemma rstrip_app p x :
  rstrip (p ++ x) =
  match rstrip x with [] => rstrip p | _ :: _ => p ++ rstrip x end.
Proof.
  induction p as [|c p IH]; simpl.
  - by destruct (rstrip x).
  - rewrite IH. destruct (rstrip x) as [|y ys]; [done|].
    by destruct p.
Qed.

Lemma rstrip_app_blank p x : blank x -> rstrip (p ++ x) = rstrip p.
Proof. intros Hx. by rewrite rstrip_app, rstrip_blank. Qed.

Lemma rstrip_idem s : rstrip (rstrip s) = rstrip s.
Proof.
  induction s as [|c r IH]; simpl; [done|].
  destruct (rstrip r) as [|y ys] eqn:Hr.
  - destruct (isspace c) eqn:Hc; simpl; [done|]. by rewrite Hc.
  - change (rstrip (c :: y :: ys)) with
      (match rstrip (y :: ys) with
       | [] => if isspace c then [] else [c] | r' => c :: r' end).
    by rewrite IH.
Qed.

Lemma lstrip_head c r : isspace c = false -> lstrip (c :: r) = c :: r.
Proof. intros Hc. simpl. by rewrite Hc. Qed.

Lemma rstrip_head c r : isspace c = false -> exists r', rstrip (c :: r) = c :: r'.
Proof.
  intros Hc. simpl. rewrite Hc. destruct (rstrip r); eauto.
Qed.

(** [lstrip] leaves nothing or something that opens with a visible
    character. *)
Lemma lstrip_cases s :
  lstrip s = [] \/ exists c r, lstrip s = c :: r /\ isspace c = false.
Proof.
  induction s as [|c r IH]; simpl; [by left|].
  destruct (isspace c) eqn:Hc; [done|]. right. eauto.
Qed.

Lemma strip_idem s : strip (strip s) = strip s.
Proof.
  unfold strip.
  destruct (lstrip_cases s) as [->|(c & r & -> & Hc)]; [done|].
  destruct (rstrip_head c r Hc) as [r' Hr]. rewrite Hr at 1.
  rewrite lstrip_head by done. rewrite <- Hr. apply rstrip_idem.
Qed.

(** A text is the sum of what [strip] removes and what it keeps. *)
Lemma lstrip_split s : exists a, blank a /\ s = a ++ lstrip s.
Proof.
  induction s as [|c r (a & Ha & IH)]; simpl.
  - exists []. split; [apply blank_nil|done].
  - destruct (isspace c) eqn:Hc.
    + exists (c :: a). split; [by constructor|]. simpl. by rewrite <- IH.
    + exists []. split; [apply blank_nil|done].
Qed.

Lemma rstrip_split s : exists b, blank b /\ s = rstrip s ++ b.
Proof.
  induction s as [|c r (b & Hb & IH)]; simpl.
  - exists []. split; [apply blank_nil|done].
  - destruct (rstrip r) as [|y ys] eqn:Hr.
    + destruct (isspace c) eqn:Hc.
      * exists (c :: r). split; [|done]. constructor; [done|].
        by apply rstrip_nil_blank.
      * exists r. split; [|done]. by apply rstrip_nil_blank.
    + exists b. split; [done|]. simpl in *. by f_equal.
Qed.

Lemma strip_split s : exists a b, blank a /\ blank b /\ s = a ++ strip s ++ b.
Proof.
  destruct (lstrip_split s) as (a & Ha & Hs).
  destruct (rstrip_split (lstrip s)) as (b & Hb & Hl).
  exists a, b. repeat split; try done. unfold strip. by rewrite <- Hl.
Qed.

(** Blank text around a line does not change what [strip] returns. *)
Lemma lstrip_app_blank a s : blank a -> lstrip (a ++ s) = lstrip s.
Proof. induction 1 as [|c r Hc _ IH]; simpl; [done|]. by rewrite Hc. Qed.

Lemma lstrip_app s x : lstrip s <> [] -> lstrip (s ++ x) = lstrip s ++ x.
Proof.
  induction s as [|c r IH]; simpl; [done|].
  destruct (isspace c); [apply IH|done].
Qed.

Lemma strip_app_blank_l a s : blank a -> strip (a ++ s) = strip s.
Proof. intros Ha. unfold strip. by rewrite lstrip_app_blank. Qed.

Lemma strip_app_blank_r s b : blank b -> strip (s ++ b) = strip s.
Proof.
  intros Hb. unfold strip.
  destruct (lstrip s) as [|c r] eqn:Hs.
  - destruct (lstrip_split s) as (a & Ha & Heq). rewrite Hs, app_nil_r in Heq.
    subst a. rewrite lstrip_blank; [done|]. by apply Forall_app.
  - rewrite lstrip_app by (by rewrite Hs). rewrite Hs.
    by apply rstrip_app_blank.
Qed.

(** ** The sanitizer, line by line *)

#[local] Arguments sanitize_line : simpl never.
#[local] Arguments sanitize_step : simpl never.
#[local] Arguments strip : simpl never.

Lemma sanitize_line_unfold l :
  sanitize_line l =
  if nonempty (strip l) && negb (startswith (py "#") (strip l))
     && negb (startswith (py "!") (strip l))
  then if nonempty (strip_prompt (strip l))
       then Some (strip_prompt (strip l)) else None
  else None.
Proof.
  unfold sanitize_line, sanitize_step, strip_prompt.
  repeat case_match; cbn [app] in *; simplify_eq; try done.
Qed.

Lemma sanitize_step_line commands l :
  sanitize_step commands l = commands ++ option_list (sanitize_line l).
Proof.
  rewrite sanitize_line_unfold. unfold sanitize_step, strip_prompt.
  repeat case_match; simplify_eq; simpl; by rewrite ?app_nil_r.
Qed.

Lemma fold_sanitize lines commands :
  fold_left sanitize_step lines commands = commands ++ omap sanitize_line lines.
Proof.
  revert commands. induction lines as [|l ls IH]; intros commands; simpl.
  - by rewrite app_nil_r.
  - rewrite IH, sanitize_step_line.
    destruct (sanitize_line l); simpl; by rewrite <- ?app_assoc, ?app_nil_r.
Qed.

Lemma sanitize_line_strip l : sanitize_line (strip l) = sanitize_line l.
Proof. by rewrite !sanitize_line_unfold, strip_idem. Qed.

Lemma sanitize_line_blank l : blank l -> sanitize_line l = None.
Proof. intros Hl. by rewrite sanitize_line_unfold, strip_blank. Qed.

Lemma sanitize_line_app_blank_l a l :
  blank a -> sanitize_line (a ++ l) = sanitize_line l.
Proof.
  intros Ha. by rewrite <- sanitize_line_strip, strip_app_blank_l,
    sanitize_line_strip.
Qed.

Lemma sanitize_line_app_blank_r l b :
  blank b -> sanitize_line (l ++ b) = sanitize_line l.
Proof.
  intros Hb. by rewrite <- sanitize_line_strip, strip_app_blank_r,
    sanitize_line_strip.
Qed.

Lemma nonempty_true s : nonempty s = true <-> s <> [].
Proof. by destruct s. Qed.

Lemma sanitize_line_command l l' : sanitize_line l = Some l' -> command_line l'.
Proof.
  rewrite sanitize_line_unfold. unfold strip_prompt, command_line.
  repeat case_match; intros; simplify_eq; split;
    try apply strip_idem; by apply nonempty_true.
Qed.

(** ** Splitting into lines *)

Lemma split_char_cons sep c r :
  split_char sep (c :: r) =
  if c =? sep then [] :: split_char sep r else cons_head [c] (split_char sep r).
Proof. simpl. destruct (c =? sep); [done|]. by destruct (split_char sep r). Qed.

Lemma split_char_nonnil sep s : split_char sep s <> [].
Proof.
  destruct s as [|c r]; [done|]. rewrite split_char_cons.
  destruct (c =? sep); [done|]. by destruct (split_char sep r).
Qed.

Lemma cons_head_nil ls : ls <> [] -> cons_head [] ls = ls.
Proof. by destruct ls. Qed.

Lemma cons_head_cons_head p q ls :
  cons_head p (cons_head q ls) = cons_head (p ++ q) ls.
Proof. destruct ls; simpl; by rewrite ?app_nil_r, ?app_assoc. Qed.

(** A text without the separator is one field; a separator after such a
    text closes that field. *)
Lemma split_char_one sep x : (sep ∉ x) -> split_char sep x = [x].
Proof.
  induction x as [|c r IH]; intros Hx; [done|].
  apply not_elem_of_cons in Hx as [Hc Hr].
  rewrite split_char_cons, IH by done.
  assert (Hcs : (c =? sep) = false) by (apply N.eqb_neq; congruence).
  by rewrite Hcs.
Qed.

Lemma split_char_app sep x z :
  (sep ∉ x) -> split_char sep (x ++ sep :: z) = x :: split_char sep z.
Proof.
  induction x as [|c r IH]; intros Hx.
  - simpl. by rewrite N.eqb_refl.
  - apply not_elem_of_cons in Hx as [Hc Hr].
    change ((c :: r) ++ sep :: z) with (c :: (r ++ sep :: z)).
    rewrite split_char_cons, IH by done.
    assert (Hcs : (c =? sep) = false) by (apply N.eqb_neq; congruence).
  by rewrite Hcs.
Qed.

Lemma split_char_fields sep s : Forall (fun l => sep ∉ l) (split_char sep s).
Proof.
  induction s as [|c r IH]; [repeat constructor; apply not_elem_of_nil|].
  rewrite split_char_cons. destruct (c =? sep) eqn:Hc.
  - constructor; [apply not_elem_of_nil|done].
  - apply N.eqb_neq in Hc. destruct IH as [|l ls Hl Hls]; simpl.
    + repeat constructor. rewrite list_elem_of_singleton. congruence.
    + constructor; [|done]. rewrite not_elem_of_cons. split; [congruence|done].
Qed.

Lemma split_char_join sep ls :
  ls <> [] -> Forall (fun l => sep ∉ l) ls ->
  split_char sep (join [sep] ls) = ls.
Proof.
  intros Hne Hls. induction Hls as [|x rest Hx Hrest IH]; [done|].
  destruct rest as [|y rest'].
  - by apply split_char_one.
  - change (join [sep] (x :: y :: rest'))
      with (x ++ sep :: join [sep] (y :: rest')).
    rewrite split_char_app by done. f_equal. by apply IH.
Qed.

Lemma split_char_blank s :
  blank s -> Forall blank (split_char LF s).
Proof.
  induction 1 as [|c r Hc Hr IH]; [repeat constructor|].
  rewrite split_char_cons. destruct (c =? LF).
  - constructor; [constructor|done].
  - destruct IH as [|l ls Hl Hls]; simpl.
    + repeat constructor. done.
    + constructor; [by constructor|done].
Qed.

Lemma omap_sanitize_blank ls :
  Forall blank ls -> omap sanitize_line ls = [].
Proof.
  induction 1 as [|l ls Hl _ IH]; [done|].
  simpl. by rewrite sanitize_line_blank.
Qed.

(** Blank text before or after the whole input changes no command. *)
Lemma sanitize_lines_blank_l a t :
  blank a ->
  omap sanitize_line (split_char LF (a ++ t))
  = omap sanitize_line (split_char LF t).
Proof.
  induction 1 as [|c r Hc Hr IH]; [done|].
  change ((c :: r) ++ t) with (c :: (r ++ t)). rewrite split_char_cons.
  destruct (c =? LF).
  - done.
  - rewrite <- IH. pose proof (split_char_nonnil LF (r ++ t)) as Hne.
    destruct (split_char LF (r ++ t)) as [|l ls]; [done|]. simpl.
    change (c :: l) with ([c] ++ l).
    rewrite (sanitize_line_app_blank_l [c] l); [done|].
    by repeat constructor.
Qed.

Lemma sanitize_lines_blank_r t b :
  blank b ->
  forall p,
    omap sanitize_line (cons_head p (split_char LF (t ++ b)))
    = omap sanitize_line (cons_head p (split_char LF t)).
Proof.
  intros Hb. induction t as [|c r IH]; intros p.
  - simpl. pose proof (split_char_blank b Hb) as Hls.
    pose proof (split_char_nonnil LF b) as Hne.
    destruct Hls as [|l ls Hl Hls]; [done|]. simpl.
    rewrite app_nil_r, sanitize_line_app_blank_r by done.
    by rewrite omap_sanitize_blank.
  - change ((c :: r) ++ b) with (c :: (r ++ b)). rewrite !split_char_cons.
    destruct (c =? LF).
    + simpl. specialize (IH []).
      rewrite !cons_head_nil in IH by apply split_char_nonnil.
      destruct (sanitize_line (p ++ [])); [f_equal|]; exact IH.
    + rewrite !cons_head_cons_head. apply IH.
Qed.

(** The sanitizer, read as one pass over the lines of the raw text: the
    strip of the whole text and the early return on the empty text change
    nothing. *)
Lemma process_generated_config_lines config :
  process_generated_config config
  = omap sanitize_line (split_char LF config).
Proof.
  unfold process_generated_config.
  destruct (nonempty config) eqn:Hne; [|by destruct config].
  simpl. rewrite fold_sanitize. simpl.
  destruct (strip_split config) as (a & b & Ha & Hb & Heq).
  rewrite Heq at 2. rewrite sanitize_lines_blank_l by done.
  pose proof (sanitize_lines_blank_r (strip config) b Hb []) as Hr.
  by rewrite !cons_head_nil in Hr by apply split_char_nonnil.
Qed.

Lemma elem_of_strip c s : c ∈ strip s -> c ∈ s.
Proof.
  intros Hc. destruct (strip_split s) as (a & b & _ & _ & Heq).
  rewrite Heq, !elem_of_app. auto.
Qed.

Lemma elem_of_replace_from old k c s :
  c ∈ replace_from old [] k s -> c ∈ s.
Proof.
  revert k. induction s as [|x r IH]; intros k; simpl; [done|].
  destruct k as [|k].
  - destruct (startswith old (x :: r)); simpl.
    + intros Hc. right. by eapply IH.
    + rewrite !elem_of_cons. intros [->|Hc]; [by left|right; by eapply IH].
  - intros Hc. right. by eapply IH.
Qed.

Lemma elem_of_replace old c s : c ∈ replace old [] s -> c ∈ s.
Proof.
  unfold replace. destruct old as [|o old'].
  - simpl. induction s as [|x r IH]; simpl; [done|].
    rewrite !elem_of_cons. intros [->|Hc]; auto.
  - apply elem_of_replace_from.
Qed.

Lemma elem_of_sanitize_line l l' c :
  sanitize_line l = Some l' -> c ∈ l' -> c ∈ l.
Proof.
  rewrite sanitize_line_unfold. unfold strip_prompt.
  repeat case_match; intros; simplify_eq;
    repeat match goal with
    | H : _ ∈ strip _ |- _ => apply elem_of_strip in H
    | H : _ ∈ replace _ [] _ |- _ => apply elem_of_replace in H
    end; done.
Qed.

(** A second pass leaves a clean command alone. *)
Lemma sanitize_line_plain l :
  command_line l -> plain_line l -> sanitize_line l = Some l.
Proof.
  intros [Hne Htrim] (H1 & H2 & H3 & H4 & H5).
  rewrite sanitize_line_unfold. unfold strip_prompt.
  rewrite Htrim, H1, H2, H3, H4, H5. by destruct l.
Qed.

(** A line that opens with no prefix keeps whatever prompt text it has
    further on: only its surrounding whitespace goes. *)
Lemma sanitize_line_prefix_elsewhere l :
  command_line (strip l) -> plain_line (strip l) ->
  sanitize_line l = Some (strip l).
Proof.
  intros Hc Hp. rewrite <- sanitize_line_strip. by apply sanitize_line_plain.
Qed.

Lemma omap_sanitize_plain ls :
  Forall command_line ls -> Forall plain_line ls ->
  omap sanitize_line ls = ls.
Proof.
  induction 1 as [|l ls Hl _ IH]; [done|].
  intros Hp. apply Forall_cons in Hp as [Hpl Hpls].
  simpl. rewrite sanitize_line_plain by done. f_equal. by apply IH.
Qed.

Lemma sanitized_commands ls :
  Forall command_line (omap sanitize_line ls).
Proof.
  induction ls as [|l ls IH]; simpl; [constructor|].
  destruct (sanitize_line l) eqn:Hl; [|done].
  constructor; [by eapply sanitize_line_command|done].
Qed.

Lemma sanitized_single_lines ls :
  Forall (fun l => LF ∉ l) ls ->
  Forall (fun l => LF ∉ l) (omap sanitize_line ls).
Proof.
  induction 1 as [|l ls Hl _ IH]; simpl; [constructor|].
  destruct (sanitize_line l) eqn:Hs; [|done].
  constructor; [|done]. intros Hin. apply Hl.
  by eapply elem_of_sanitize_line.
Qed.

(** ** The renderer *)

Lemma splitlines_cons c r :
  islinebreak c = false ->
  splitlines (c :: r) = cons_head [c] (splitlines r).
Proof.
  intros Hc. simpl. rewrite Hc.
  assert ((c =? CR) = false) as ->.
  { apply N.eqb_neq. intros ->. done. }
  destruct r; simpl; [done|]. by destruct (splitlines _).
Qed.

(** A line without breaks, closed by a line feed, is the first line. *)
Lemma splitlines_line l rest :
  no_linebreak l -> splitlines (l ++ LF :: rest) = l :: splitlines rest.
Proof.
  induction 1 as [|c r Hc _ IH].
  - simpl. by destruct rest.
  - change ((c :: r) ++ LF :: rest) with (c :: (r ++ LF :: rest)).
    by rewrite splitlines_cons, IH.
Qed.

Lemma splitlines_last l :
  no_linebreak l -> l <> [] -> splitlines l = [l].
Proof.
  induction 1 as [|c r Hc Hr IH]; [done|]. intros _.
  rewrite splitlines_cons by done. destruct r as [|c' r']; [done|].
  by rewrite IH.
Qed.

Lemma no_linebreak_app a b :
  no_linebreak a -> no_linebreak b -> no_linebreak (a ++ b).
Proof. apply Forall_app_2. Qed.

Lemma no_linebreak_py_decide (s : str) :
  forallb (fun c => negb (islinebreak c)) s = true -> no_linebreak s.
Proof.
  rewrite forallb_forall. intros Hs. apply Forall_forall. intros c Hc.
  apply negb_true_iff, Hs. by apply list_elem_of_In.
Qed.

Lemma strip_visible c r : isspace c = false -> strip (c :: r) = rstrip (c :: r).
Proof. intros Hc. unfold strip. by rewrite lstrip_head. Qed.

Lemma strip_visible_nonempty c r :
  isspace c = false -> nonempty (strip (c :: r)) = true.
Proof.
  intros Hc. rewrite strip_visible by done.
  by destruct (rstrip_head c r Hc) as [r' ->].
Qed.

(** Text that opens with a visible character and ends visibly is its own
    strip, whatever blank indentation precedes it. *)
Lemma strip_indented a c p x :
  blank a -> isspace c = false -> ends_visibly x ->
  strip (a ++ (c :: p) ++ x) = (c :: p) ++ x.
Proof.
  intros Ha Hc [Hx Hne]. rewrite strip_app_blank_l by done.
  change ((c :: p) ++ x) with (c :: (p ++ x)). rewrite strip_visible by done.
  change (c :: (p ++ x)) with ((c :: p) ++ x). rewrite rstrip_app, Hx.
  by destruct x.
Qed.

Lemma ends_visibly_app p x : ends_visibly x -> ends_visibly (p ++ x).
Proof.
  intros [Hx Hne]. split.
  - rewrite rstrip_app, Hx. by destruct x.
  - by destruct p, x.
Qed.

Lemma contains_here n q : startswith n (n ++ q) = true.
Proof. induction n as [|c n IH]; simpl; [done|]. by rewrite N.eqb_refl. Qed.

Lemma contains_unfold n h :
  contains n h
  = startswith n h || match h with [] => false | _ :: r => contains n r end.
Proof. by destruct h. Qed.

Lemma contains_infix n p q : contains n (p ++ n ++ q) = true.
Proof.
  induction p as [|c p IH].
  - simpl app. by rewrite contains_unfold, contains_here.
  - simpl. rewrite IH. apply orb_true_r.
Qed.

(** *** The create template *)

Lemma rendered_create i a m :
  render template_create
    (<[py "interface" := i]>
       (<[py "ip_address" := a]> (<[py "subnet" := m]> ∅)))
  = [] ++ LF :: (py "        interface " ++ i)
       ++ LF :: (py "            ip address " ++ a ++ py " " ++ m)
       ++ LF :: py "            no shutdown" ++ LF :: py "        ".
Proof.
  unfold render, template_create. cbn [map concat render_segment].
  rewrite lookup_insert_eq.
  rewrite lookup_insert_ne, lookup_insert_eq by (by vm_compute).
  rewrite !lookup_insert_ne, lookup_insert_eq by (by vm_compute).
  cbn [default id].
  cbn [app]. rewrite app_nil_r, <- !app_assoc. by cbn [app].
Qed.

Lemma blank_spaces n : blank (replicate n 32).
Proof. induction n; simpl; by constructor. Qed.

Lemma strip_indent n t x : strip ((replicate n 32 ++ t) ++ x) = strip (t ++ x).
Proof. rewrite <- app_assoc. apply strip_app_blank_l, blank_spaces. Qed.

Lemma strip_nil_blank s : strip s = [] -> blank s.
Proof.
  intros Hs. destruct (strip_split s) as (a & b & Ha & Hb & Heq).
  rewrite Heq, Hs. by apply Forall_app.
Qed.

(** The comprehension of the renderer, line by line. *)
Lemma comprehension_lines ls :
  map strip (List.filter (fun line => nonempty (strip line)) ls)
  = omap render_line ls.
Proof.
  induction ls as [|l ls IH]; [done|]. simpl. unfold render_line at 1.
  destruct (nonempty (strip l)); simpl; by rewrite IH.
Qed.

Lemma render_line_blank s : blank s -> render_line s = None.
Proof. intros Hs. unfold render_line. by rewrite strip_blank. Qed.

Lemma render_line_text n t x :
  forallb isspace t = false ->
  render_line ((replicate n 32 ++ t) ++ x) = Some (strip (t ++ x)).
Proof.
  intros Ht. unfold render_line. rewrite strip_indent.
  destruct (strip (t ++ x)) eqn:Hs; [|done].
  apply strip_nil_blank, Forall_app in Hs as [Hb _].
  assert (forallb isspace t = true); [|congruence].
  apply forallb_forall. intros c Hc.
  by apply (proj1 (Forall_forall _ _) Hb), list_elem_of_In.
Qed.

Ltac no_linebreak_tac :=
  repeat first
    [ assumption
    | apply Forall_nil_2
    | apply no_linebreak_py_decide; reflexivity
    | apply no_linebreak_app ].

(** The create intent on break-free arguments: three lines, each the strip
    of its template line. *)
Lemma render_create_lines i a m :
  no_linebreak i -> no_linebreak a -> no_linebreak m ->
  render_interface_config (py "create") i a m
  = [ strip (py "interface " ++ i);
      strip (py "ip address " ++ a ++ py " " ++ m);
      py "no shutdown" ].
Proof.
  intros Hi Ha Hm. unfold render_interface_config, interface_template.
  destruct (decide (py "create" = py "create")) as [_|]; [|done].
  rewrite rendered_create.
  rewrite !splitlines_line by no_linebreak_tac.
  rewrite splitlines_last by (no_linebreak_tac || done).
  change (py "        interface ") with (replicate 8 32 ++ py "interface ").
  change (py "            ip address ")
    with (replicate 12 32 ++ py "ip address ").
  rewrite comprehension_lines. cbn [omap list_omap].
  rewrite !render_line_text by done.
  by rewrite !render_line_blank
    by (apply Forall_nil_2 || apply (blank_spaces 8)).
Qed.

(** *** The delete template *)

Lemma rendered_delete i :
  render template_delete (<[py "interface" := i]> ∅)
  = [] ++ LF :: (py "        interface " ++ i)
       ++ LF :: py "            no ip address"
       ++ LF :: py "            shutdown" ++ LF :: py "        ".
Proof.
  unfold render, template_delete. cbn [map concat render_segment].
  rewrite lookup_insert_eq. cbn [default id].
  cbn [app]. rewrite app_nil_r, <- !app_assoc. by cbn [app].
Qed.

(** Every action other than ["create"] takes the delete branch. *)
Lemma render_delete_lines action i a m :
  action <> py "create" -> no_linebreak i ->
  render_interface_config action i a m
  = [ strip (py "interface " ++ i); py "no ip address"; py "shutdown" ].
Proof.
  intros Hact Hi. unfold render_interface_config, interface_template.
  destruct (decide (action = py "create")) as [|_]; [done|].
  rewrite rendered_delete.
  rewrite !splitlines_line by no_linebreak_tac.
  rewrite splitlines_last by (no_linebreak_tac || done).
  change (py "        interface ") with (replicate 8 32 ++ py "interface ").
  rewrite comprehension_lines. cbn [omap list_omap].
  rewrite render_line_text by done.
  change (py "            no ip address")
    with ((replicate 12 32 ++ py "no ip address") ++ []).
  change (py "            shutdown")
    with ((replicate 12 32 ++ py "shutdown") ++ []).
  rewrite !render_line_text by done.
  by rewrite !render_line_blank
    by (apply Forall_nil_2 || apply (blank_spaces 8)).
Qed.

(** *** Dotted quads *)

Lemma skip_digits_app s t :
  skip_digits s <> [] -> skip_digits (s ++ t) = skip_digits s ++ t.
Proof.
  induction s as [|c r IH]; simpl; [done|].
  destruct (isdigit c); [apply IH|done].
Qed.

Lemma number_app s t r :
  number s = Some r -> r <> [] -> number (s ++ t) = Some (r ++ t).
Proof.
  destruct s as [|c s]; simpl; [done|].
  destruct (isdigit c); [|done]. intros [= <-] Hne.
  by rewrite skip_digits_app.
Qed.

Lemma number_app_some s t : is_Some (number s) -> is_Some (number (s ++ t)).
Proof.
  destruct s as [|c s]; simpl; [by intros []|].
  by destruct (isdigit c).
Qed.

Lemma dot_app s t r : dot s = Some r -> dot (s ++ t) = Some (r ++ t).
Proof.
  destruct s as [|c s]; simpl; [done|].
  repeat case_match; intros; by simplify_eq.
Qed.

Lemma dot_nonnil s r : dot s = Some r -> s <> [].
Proof. by destruct s. Qed.

Lemma starts_with_ipv4_app s t :
  starts_with_ipv4 s = true -> starts_with_ipv4 (s ++ t) = true.
Proof.
  unfold starts_with_ipv4.
  destruct (number s) as [r1|] eqn:H1; simpl; [|done].
  destruct (dot r1) as [r2|] eqn:H2; simpl; [|done].
  destruct (number r2) as [r3|] eqn:H3; simpl; [|done].
  destruct (dot r3) as [r4|] eqn:H4; simpl; [|done].
  destruct (number r4) as [r5|] eqn:H5; simpl; [|done].
  destruct (dot r5) as [r6|] eqn:H6; simpl; [|done].
  destruct (number r6) as [r7|] eqn:H7; simpl; [|done].
  intros _.
  rewrite (number_app s t r1) by eauto using dot_nonnil. simpl.
  rewrite (dot_app r1 t r2) by done. simpl.
  rewrite (number_app r2 t r3) by eauto using dot_nonnil. simpl.
  rewrite (dot_app r3 t r4) by done. simpl.
  rewrite (number_app r4 t r5) by eauto using dot_nonnil. simpl.
  rewrite (dot_app r5 t r6) by done. simpl.
  destruct (number_app_some r6 t) as [r8 ->]; [by rewrite H7|done].
Qed.

Lemma contains_ipv4_unfold s :
  contains_ipv4 s
  = starts_with_ipv4 s
    || match s with [] => false | _ :: r => contains_ipv4 r end.
Proof. by destruct s. Qed.

Lemma contains_ipv4_app_r p s :
  contains_ipv4 s = true -> contains_ipv4 (p ++ s) = true.
Proof.
  intros Hs. induction p as [|c p IH]; [done|].
  simpl. rewrite IH. apply orb_true_r.
Qed.

Lemma contains_ipv4_app_l s t :
  contains_ipv4 s = true -> contains_ipv4 (s ++ t) = true.
Proof.
  induction s as [|c r IH]; [done|].
  simpl. intros [Hs|Hr]%orb_true_iff.
  - change (c :: r ++ t) with ((c :: r) ++ t).
    by rewrite starts_with_ipv4_app.
  - rewrite IH by done. apply orb_true_r.
Qed.

Lemma contains_ipv4_strip s :
  contains_ipv4 s = false -> contains_ipv4 (strip s) = false.
Proof.
  intros Hs. destruct (contains_ipv4 (strip s)) eqn:Hc; [|done].
  destruct (strip_split s) as (a & b & _ & _ & Heq).
  rewrite Heq in Hs. rewrite contains_ipv4_app_r in Hs; [done|].
  by apply contains_ipv4_app_l.
Qed.

Lemma contains_ipv4_nondigit c s :
  isdigit c = false -> contains_ipv4 (c :: s) = contains_ipv4 s.
Proof.
  intros Hc. simpl. unfold starts_with_ipv4. simpl. by rewrite Hc.
Qed.

Lemma contains_ipv4_interface i :
  contains_ipv4 (py "interface " ++ i) = contains_ipv4 i.
Proof.
  change (py "interface " ++ i)
    with (105 :: 110 :: 116 :: 101 :: 114 :: 102 :: 97 :: 99 :: 101 :: 32 :: i).
  by rewrite !contains_ipv4_nondigit.
Qed.

(** ** Call logs *)

#[local] Arguments py : simpl never.
#[local] Arguments startswith : simpl never.

Section CallCounting.
Context `{Platform}.

Lemma count_app p l1 l2 : count p (l1 ++ l2) = (count p l1 + count p l2)%nat.
Proof. unfold count. by rewrite List.filter_app, length_app. Qed.

Lemma count_snoc p l ev :
  count p (l ++ [ev]) = (count p l + if p ev then 1 else 0)%nat.
Proof. rewrite count_app. unfold count. simpl. by destruct (p ev). Qed.

Lemma never_ret p {A} (a : A) : never p (mret a).
Proof. by intros s. Qed.

Lemma never_raise p {A} e : never p (raise e : M A).
Proof. by intros s. Qed.

Lemma never_bind p {A B} (m : M A) (k : A -> M B) :
  never p m -> (forall a, never p (k a)) -> never p (m ≫= k).
Proof.
  intros Hm Hk s. unfold mbind, M_bind. specialize (Hm s).
  destruct (m s) as [[a|e] s1]; simpl in *; [|done].
  by rewrite Hk.
Qed.

Lemma never_try_except p {A} (m : M A) h :
  never p m -> (forall e, never p (h e)) -> never p (try_except m h).
Proof.
  intros Hm Hh s. unfold try_except. specialize (Hm s).
  destruct (m s) as [[a|e] s1]; simpl in *; [done|].
  destruct (is_Exception e); simpl; [|done]. by rewrite Hh.
Qed.

Lemma never_try_finally p {A} (m : M A) c :
  never p m -> never p c -> never p (try_finally m c).
Proof.
  intros Hm Hc s. unfold try_finally. specialize (Hm s).
  destruct (m s) as [r s1]. specialize (Hc s1).
  destruct (c s1) as [[[]|e] s2]; simpl in *; congruence.
Qed.

Lemma never_call p {A} ev (f : World -> res A * World) :
  p ev = false -> never p (call ev f).
Proof.
  intros Hev s. unfold call. destruct (f (world s)) as [r w]. simpl.
  rewrite count_snoc, Hev. lia.
Qed.

Lemma never_pure p {A} (v : res A) : never p (fun s => (v, s)).
Proof. by intros s. Qed.

Lemma never_for_each p {A} (body : A -> M unit) l :
  (forall x, never p (body x)) -> never p (for_each body l).
Proof.
  intros Hb. induction l as [|x l IH]; simpl.
  - apply never_ret.
  - apply never_bind; [apply Hb|done].
Qed.

End CallCounting.

Ltac never_step :=
  lazymatch goal with
  | |- never _ (mret _) => apply never_ret
  | |- never _ (raise _) => apply never_raise
  | |- never _ (mbind _ _) => apply never_bind; [|intros ?]
  | |- never _ (try_except _ _) => apply never_try_except; [|intros ?]
  | |- never _ (try_finally _ _) => apply never_try_finally
  | |- never _ (call _ _) => apply never_call; reflexivity
  | |- never _ (print _) => unfold print
  | |- never _ (echo _) => unfold echo
  | |- never _ (input _) => unfold input
  | |- never _ (getitem _ _) => unfold getitem
  | |- never _ (read_inventory _) => unfold read_inventory
  | |- never _ (for_each _ _) => apply never_for_each; intros ?
  | |- never _ (let _ := _ in _) => cbv zeta
  | |- never _ (fun s => (_, s)) => apply never_pure
  | |- never _ (match ?x with _ => _ end) => destruct x
  end.

Ltac never_tac := repeat never_step.

(** ** The session gateway *)

Section Gateway.
Context `{Platform}.

(** What [connect_device] does, by what the transport does. *)
Lemma connect_device_run device s :
  connect_device device s =
  match netmiko_ConnectHandler device (world s) with
  | (Ret conn, w1) =>
      match netmiko_enable conn w1 with
      | (Ret _, w2) =>
          (Ret (Some conn),
           State w2 (log s ++ [ConnectHandler device; Enable conn]))
      | (Raise e, w2) =>
          if is_Exception e
          then (Ret None,
                State w2 (log s ++ [ConnectHandler device; Enable conn;
                  Echo (py "Error connecting to device "
                        ++ format_get (device !! py "host") ++ py ": "
                        ++ exc_str e)]))
          else (Raise e,
                State w2 (log s ++ [ConnectHandler device; Enable conn]))
      end
  | (Raise e, w1) =>
      if is_Exception e
      then (Ret None,
            State w1 (log s ++ [ConnectHandler device;
              Echo (py "Error connecting to device "
                    ++ format_get (device !! py "host") ++ py ": "
                    ++ exc_str e)]))
      else (Raise e, State w1 (log s ++ [ConnectHandler device]))
  end.
Proof.
  unfold connect_device, try_except, echo, call, mbind, M_bind, mret, M_ret.
  simpl.
  destruct (netmiko_ConnectHandler device (world s)) as [[conn|e] w1]; simpl.
  - destruct (netmiko_enable conn w1) as [[[]|e] w2]; simpl.
    + by rewrite <- ?app_assoc.
    + destruct (is_Exception e); simpl; by rewrite <- ?app_assoc.
  - destruct (is_Exception e); simpl; by rewrite <- ?app_assoc.
Qed.

Lemma connect_device_never_applies device :
  never is_apply (connect_device device).
Proof. unfold connect_device. never_tac. Qed.

Lemma connect_device_never_disconnects device :
  never is_disconnect (connect_device device).
Proof. unfold connect_device. never_tac. Qed.

Lemma establish_connection_never_applies device_data :
  never is_apply (establish_connection device_data).
Proof.
  unfold establish_connection, get_conn_info.
  never_tac; apply connect_device_never_applies.
Qed.

Lemma establish_connection_never_disconnects device_data :
  never is_disconnect (establish_connection device_data).
Proof.
  unfold establish_connection, get_conn_info.
  never_tac; apply connect_device_never_disconnects.
Qed.

Lemma send_commands_never_disconnects connection commands :
  never is_disconnect (send_commands connection commands).
Proof. unfold send_commands. never_tac. Qed.

(** [send_commands] on an open session: one [send_config_set], and the
    result says how it ended. *)
Lemma send_commands_run conn commands s :
  send_commands (Some conn) commands s =
  let '(r, w) := netmiko_send_config_set conn commands (world s) in
  (match r with
   | Ret out => Ret (SendResult true (Some out) None)
   | Raise e =>
       if is_Exception e
       then Ret (SendResult false None (Some (exc_str e)))
       else Raise e
   end,
   State w (log s ++ [SendConfigSet conn commands])).
Proof.
  unfold send_commands, try_except, call, mbind, M_bind, mret, M_ret. simpl.
  destruct (netmiko_send_config_set conn commands (world s)) as [[out|e] w];
    simpl; [done|]. by destruct (is_Exception e).
Qed.

(** [send_config] once the session is open: one [send_config_set], then
    one [disconnect], however the former ends. *)
Lemma send_config_run device commands s conn s1 :
  connect_device device s = (Ret (Some conn), s1) ->
  send_config device commands s =
  let '(r, w1) := netmiko_send_config_set conn commands (world s1) in
  let '(d, w2) := netmiko_disconnect conn w1 in
  (match d with
   | Raise e => Raise e
   | Ret _ =>
       match r with
       | Ret out => Ret out
       | Raise e =>
           if is_Exception e
           then Ret (py "Error sending configuration: " ++ exc_str e)
           else Raise e
       end
   end,
   State w2 (log s1 ++ [SendConfigSet conn commands; Disconnect conn])).
Proof.
  intros Hopen.
  unfold send_config, try_finally, try_except, call, mbind, M_bind, mret, M_ret.
  rewrite Hopen. simpl.
  destruct (netmiko_send_config_set conn commands (world s1)) as [[out|e] w1];
    simpl.
  - destruct (netmiko_disconnect conn w1) as [[[]|e'] w2]; simpl;
      by rewrite <- app_assoc.
  - destruct (is_Exception e); simpl;
      destruct (netmiko_disconnect conn w1) as [[[]|e'] w2]; simpl;
      by rewrite <- app_assoc.
Qed.

Lemma send_config_closed device commands s s1 :
  connect_device device s = (Ret None, s1) ->
  send_config device commands s
  = (Ret (py "Connection failed; configuration not sent."), s1).
Proof.
  intros Hopen. unfold send_config, mbind, M_bind. by rewrite Hopen.
Qed.

(** The sibling of [deploy_configuration]: whenever [send_config] has
    opened a session it closes it exactly once, whether the commands were
    applied, were refused with an [Exception], or anything else was
    raised. *)
Lemma send_config_disconnects_once device commands s conn s1 :
  connect_device device s = (Ret (Some conn), s1) ->
  count is_disconnect (log (send_config device commands s).2)
  = S (count is_disconnect (log s)).
Proof.
  intros Hopen. rewrite (send_config_run _ _ _ _ _ Hopen).
  pose proof (connect_device_never_disconnects device s) as Hc.
  rewrite Hopen in Hc. simpl in Hc.
  destruct (netmiko_send_config_set conn commands (world s1)) as [r w1].
  destruct (netmiko_disconnect conn w1) as [d w2]. simpl.
  rewrite count_app, Hc. unfold count. simpl. lia.
Qed.

(** C4. When the session cannot be opened, [send_config] returns the
    connection-failure message and [send_commands] the "No active
    connection" failure, and no [send_config_set] call is made. *)
Theorem open_failure_sends_nothing device commands s s1 :
  connect_device device s = (Ret None, s1) ->
  send_config device commands s
  = (Ret (py "Connection failed; configuration not sent."), s1)
  /\ count is_apply (log (send_config device commands s).2)
     = count is_apply (log s)
  /\ send_commands None commands s1
     = (Ret (SendResult false None (Some (py "No active connection"))), s1).
Proof.
  intros Hopen. rewrite (send_config_closed _ _ _ _ Hopen).
  repeat split. simpl.
  pose proof (connect_device_never_applies device s) as Hc.
  by rewrite Hopen in Hc.
Qed.

(** The same on the path of [deploy_configuration]. *)
Lemma deploy_configuration_open_failure device_data commands s s1 :
  establish_connection device_data s = (Ret None, s1) ->
  deploy_configuration device_data commands s
  = (Ret false,
     State (world s1)
           (log s1 ++ [Print (py "Failed to establish device connection")]))
  /\ count is_apply (log (deploy_configuration device_data commands s).2)
     = count is_apply (log s).
Proof.
  intros Hopen.
  assert (deploy_configuration device_data commands s
          = (Ret false,
             State (world s1)
               (log s1 ++ [Print (py "Failed to establish device connection")])))
    as Hrun.
  { unfold deploy_configuration, mbind, M_bind. by rewrite Hopen. }
  split; [done|]. rewrite Hrun. simpl. rewrite count_snoc. simpl.
  pose proof (establish_connection_never_applies device_data s) as Hc.
  rewrite Hopen in Hc. simpl in Hc. lia.
Qed.

(** C2, as the code has it.  An empty command list is deployed like any
    other: once the session is open, [send_config_set] is called exactly
    once, with the empty list, and the result reports how that call ended
    (success with the text it returned, failure with the error it raised). *)
Theorem empty_deployment_applies_once device conn s s1 :
  connect_device device s = (Ret (Some conn), s1) ->
  log (send_commands (Some conn) [] s1).2 = log s1 ++ [SendConfigSet conn []]
  /\ (send_commands (Some conn) [] s1).1
     = match (netmiko_send_config_set conn [] (world s1)).1 with
       | Ret out => Ret (SendResult true (Some out) None)
       | Raise e =>
           if is_Exception e
           then Ret (SendResult false None (Some (exc_str e)))
           else Raise e
       end
  /\ log (send_config device [] s).2
     = log s1 ++ [SendConfigSet conn []; Disconnect conn]
  /\ count is_apply (log (send_config device [] s).2)
     = S (count is_apply (log s)).
Proof.
  intros Hopen. rewrite send_commands_run, (send_config_run _ _ _ _ _ Hopen).
  pose proof (connect_device_never_applies device s) as Hc.
  rewrite Hopen in Hc. simpl in Hc.
  destruct (netmiko_send_config_set conn [] (world s1)) as [r w1].
  destruct (netmiko_disconnect conn w1) as [d w2]. simpl.
  repeat split. rewrite count_app, Hc. unfold count. simpl. lia.
Qed.

Lemma deploy_configuration_never_disconnects device_data commands :
  never is_disconnect (deploy_configuration device_data commands).
Proof.
  unfold deploy_configuration. never_tac.
  - apply establish_connection_never_disconnects.
  - apply send_commands_never_disconnects.
Qed.

End Gateway.

(** ** The driver *)

Section Driver.
Context `{Platform}.

Lemma query_ollama_run prompt model s :
  query_ollama prompt model s =
  let body := Payload model prompt system_instruction false in
  let '(r, w) := requests_post ollama_url body 60 (world s) in
  (answer r, State w (log s ++ [Post ollama_url body 60])).
Proof.
  unfold query_ollama, answer, decode, try_except, call, raise,
    mbind, M_bind, mret, M_ret.
  simpl. destruct (requests_post _ _ _ _) as [[response|e] w]; simpl.
  - destruct (raise_for_status response) as [[]|e]; simpl.
    + destruct (json response) as [v|e]; simpl.
      * destruct v; simpl; done.
      * by destruct (is_Exception e).
    + by destruct (is_Exception e).
  - by destruct (is_Exception e).
Qed.

(** [query_ollama] lets no [Exception] out. *)
Lemma answer_raise r e : answer r = Raise e -> is_Exception e = false.
Proof.
  unfold answer. destruct (decode r) as [v|e']; [done|].
  destruct (is_Exception e') eqn:He; [done|]. by intros [= <-].
Qed.

Lemma answer_failure r e :
  decode r = Raise e -> is_Exception e = true ->
  answer r = Ret (PStr (py "Error communicating with Ollama: " ++ exc_str e)).
Proof. intros Hd He. unfold answer. by rewrite Hd, He. Qed.

Lemma generate_device_config_run device_info requirements s :
  generate_device_config device_info requirements s =
  let '(r, w) :=
    requests_post ollama_url (generation_payload device_info requirements) 60
      (world s) in
  let l := log s ++
    [ Print (py "Generating configuration for "
             ++ get_default device_info (py "Name") (py "device") ++ py "...");
      Print (py "This may take a few moments...");
      Post ollama_url (generation_payload device_info requirements) 60 ] in
  match answer r with
  | Ret (PStr text) =>
      if startswith (py "Error") text
      then (Ret None,
            State w (l ++ [Print (py "Configuration generation failed: "
                                  ++ text)]))
      else (Ret (Some text),
            State w (l ++ [Print (py "Configuration generated successfully!")]))
  | Ret v => (Raise (AttributeError v (py "startswith")), State w l)
  | Raise e => (Raise e, State w l)
  end.
Proof.
  unfold generate_device_config, print.
  unfold mbind at 1 2, M_bind at 1 2, call at 1 2. simpl.
  unfold mbind at 1, M_bind at 1. rewrite query_ollama_run. simpl.
  unfold generation_payload.
  destruct (requests_post _ _ _ _) as [r w]. simpl.
  rewrite <- !app_assoc. simpl.
  destruct (answer r) as [v|e]; [|done].
  destruct v; try done.
  unfold mbind, M_bind, call, mret, M_ret, raise. simpl.
  destruct (startswith (py "Error") s0); simpl; by rewrite <- ?app_assoc.
Qed.

Lemma generation_failure_answer r text :
  generation_failure r text ->
  answer r = Ret (PStr text) /\ startswith (py "Error") text = true.
Proof.
  intros [e Hd He|t Hd Ht]; unfold answer; rewrite Hd; [|done].
  by rewrite He.
Qed.

(** One turn of the loop for a device whose generation fails. *)
Lemma main_loop_body_skips requirements device_data s r w text :
  requests_post ollama_url (generation_payload device_data requirements) 60
    (world s) = (r, w) ->
  generation_failure r text ->
  main_loop_body requirements device_data s
  = (Ret tt,
     State w (log s ++ skipped_device_log device_data requirements text)).
Proof.
  intros Hpost [Hans Herr]%generation_failure_answer.
  unfold main_loop_body, print.
  unfold mbind at 1 2 3, M_bind at 1 2 3, call at 1 2 3. simpl.
  unfold mbind at 1 2, M_bind at 1 2.
  rewrite generate_device_config_run. simpl.
  rewrite Hpost, Hans, Herr.
  unfold mbind, M_bind, mret, M_ret, call, skipped_device_log. simpl.
  by rewrite <- !app_assoc.
Qed.

(** As the driver stands, no run of [main] opens a session or sends a
    command: the deployment step is a printed notice. *)
Lemma main_never_applies : never is_apply main.
Proof.
  unfold main, main_loop_body, generate_device_config, query_ollama.
  never_tac.
Qed.

(** The loop over a concatenation is the loop over the first part followed
    by the loop over the second. *)
Lemma for_each_app {A} (body : A -> M unit) l1 l2 s :
  for_each body (l1 ++ l2) s = (for_each body l1 ;; for_each body l2) s.
Proof.
  revert s. induction l1 as [|x l1 IH]; intros s; simpl; [done|].
  unfold mbind, M_bind in *. destruct (body x s) as [[[]|e] s1]; [|done].
  apply IH.
Qed.

(** C5. In a run over any inventory, a device whose generation fails (the
    backend call raised, or the text returned opens with ["Error"]) is only
    reported: the operator is asked nothing and nothing is sent for it, and
    the loop goes on with every record after it. *)
Theorem generation_failure_skips_device
    requirements before device_data rest s0 s r w text :
  for_each (main_loop_body requirements) before s0 = (Ret tt, s) ->
  requests_post ollama_url (generation_payload device_data requirements) 60
    (world s) = (r, w) ->
  generation_failure r text ->
  for_each (main_loop_body requirements) (before ++ device_data :: rest) s0
  = for_each (main_loop_body requirements) rest
      (State w (log s ++ skipped_device_log device_data requirements text))
  /\ count is_input (skipped_device_log device_data requirements text) = 0%nat
  /\ count is_apply (skipped_device_log device_data requirements text) = 0%nat.
Proof.
  intros Hbefore Hpost Hfail. split; [|done].
  rewrite for_each_app. unfold mbind at 1, M_bind at 1. rewrite Hbefore.
  simpl. unfold mbind, M_bind.
  by rewrite (main_loop_body_skips _ _ _ _ _ _ Hpost Hfail).
Qed.

(** C10. [query_ollama] lets no [Exception] out: whatever the exchange with
    the backend raises comes back as text opening with
    ["Error communicating with Ollama: "].  [generate_device_config] returns
    [None] exactly when the text it got opens with ["Error"]; so a text the
    model really generated is discarded too when it opens that way. *)
Theorem error_prefix_decides_generation :
  (forall prompt model s e,
     (query_ollama prompt model s).1 = Raise e -> is_Exception e = false)
  /\ (forall prompt model s r w e,
        requests_post ollama_url
          (Payload model prompt system_instruction false) 60 (world s) = (r, w) ->
        decode r = Raise e -> is_Exception e = true ->
        (query_ollama prompt model s).1
        = Ret (PStr (py "Error communicating with Ollama: " ++ exc_str e)))
  /\ (forall device_info requirements s l text,
        (query_ollama (generation_prompt device_info requirements)
           default_model (State (world s) l)).1 = Ret (PStr text) ->
        (generate_device_config device_info requirements s).1
        = Ret (if startswith (py "Error") text then None else Some text))
  /\ (forall device_info requirements s w text,
        requests_post ollama_url (generation_payload device_info requirements)
          60 (world s) = (generated text, w) ->
        startswith (py "Error") text = true ->
        (generate_device_config device_info requirements s).1 = Ret None).
Proof.
  repeat split.
  - intros prompt model s e. rewrite query_ollama_run. cbv zeta.
    destruct (requests_post _ _ _ _) as [r w]. simpl. apply answer_raise.
  - intros prompt model s r w e Hpost Hd He. rewrite query_ollama_run.
    cbv zeta. rewrite Hpost. simpl. by apply answer_failure.
  - intros device_info requirements s l text.
    rewrite query_ollama_run, generate_device_config_run. cbv zeta.
    unfold generation_payload. simpl.
    destruct (requests_post _ _ _ _) as [r w]. simpl. intros ->.
    by destruct (startswith (py "Error") text).
  - intros device_info requirements s w text Hpost Herr.
    rewrite generate_device_config_run. cbv zeta. rewrite Hpost.
    unfold generated, answer, decode. simpl.
    destruct (decide (py "response" = py "response")); [|done].
    simpl. by rewrite Herr.
Qed.

End Driver.

(** ** Command lists *)

Lemma render_interface_config_lines action interface ip_address subnet_mask :
  render_interface_config action interface ip_address subnet_mask
  = omap render_line
      (splitlines
         (render (interface_template action interface ip_address subnet_mask).2
                 (interface_template action interface ip_address subnet_mask).1)).
Proof.
  unfold render_interface_config.
  destruct (interface_template _ _ _ _) as [config_vars template_string].
  apply comprehension_lines.
Qed.

Lemma rendered_commands ls : Forall command_line (omap render_line ls).
Proof.
  induction ls as [|l ls IH]; simpl; [constructor|].
  unfold render_line at 1. destruct (nonempty (strip l)) eqn:Hl; [|done].
  constructor; [|done]. split; [by apply nonempty_true|apply strip_idem].
Qed.

(** C9. Every line the renderer or the sanitizer returns is non-empty and
    equal to its own strip, and the output is the input's lines taken in
    order, each contributing at most one command. *)
Theorem command_lists_are_trimmed_and_ordered :
  (forall action interface ip_address subnet_mask,
     Forall command_line
       (render_interface_config action interface ip_address subnet_mask)
     /\ render_interface_config action interface ip_address subnet_mask
        = omap render_line
            (splitlines
               (render
                  (interface_template action interface ip_address subnet_mask).2
                  (interface_template action interface ip_address subnet_mask).1)))
  /\ (forall config,
        Forall command_line (process_generated_config config)
        /\ process_generated_config config
           = omap sanitize_line (split_char LF config)).
Proof.
  split.
  - intros. split; [|apply render_interface_config_lines].
    rewrite render_interface_config_lines. apply rendered_commands.
  - intros. split; [|apply process_generated_config_lines].
    rewrite process_generated_config_lines. apply sanitized_commands.
Qed.

(** C7, as the code has it.  For arguments without line breaks, where the
    interface name and the mask are non-empty and do not end in whitespace,
    the create intent renders exactly three lines: the interface selection,
    the address assignment holding the address and the mask, and
    [no shutdown]. *)
Theorem create_renders_three_lines interface ip_address subnet_mask :
  no_linebreak interface -> no_linebreak ip_address ->
  no_linebreak subnet_mask ->
  ends_visibly interface -> ends_visibly subnet_mask ->
  let address_line := py "ip address " ++ ip_address ++ py " " ++ subnet_mask in
  render_interface_config (py "create") interface ip_address subnet_mask
  = [py "interface " ++ interface; address_line; py "no shutdown"]
  /\ contains ip_address address_line = true
  /\ contains subnet_mask address_line = true
  /\ Forall (fun l => l <> [])
       (render_interface_config (py "create") interface ip_address subnet_mask).
Proof.
  intros Hi Ha Hm Hei Hem address_line.
  assert (render_interface_config (py "create") interface ip_address subnet_mask
          = [py "interface " ++ interface; address_line; py "no shutdown"])
    as Hrun.
  { rewrite render_create_lines by done. f_equal; [|f_equal].
    - apply (strip_indented [] 105 (py "nterface ") interface);
        [apply blank_nil|done|done].
    - apply (strip_indented [] 105 (py "p address ")
               (ip_address ++ py " " ++ subnet_mask));
        [apply blank_nil|done|]. by do 2 apply ends_visibly_app. }
  split; [done|]. split; [|split].
  - apply (contains_infix ip_address (py "ip address ")).
  - unfold address_line.
    rewrite <- (app_nil_r subnet_mask) at 2. rewrite !app_assoc, <- !app_assoc.
    rewrite (app_assoc (py "ip address ")), (app_assoc _ (py " ")).
    apply contains_infix.
  - rewrite Hrun. destruct Hei as [_ Hne]. by repeat constructor.
Qed.

(** C8, as the code has it.  For an interface name without line breaks,
    every action other than ["create"] renders exactly three lines: the
    interface selection, [no ip address] and [shutdown]; and when the name
    holds no dotted quad, no line of the output does. *)
Theorem delete_renders_three_lines action interface ip_address subnet_mask :
  action <> py "create" -> no_linebreak interface ->
  render_interface_config action interface ip_address subnet_mask
  = [strip (py "interface " ++ interface); py "no ip address"; py "shutdown"]
  /\ strip (py "interface " ++ interface) <> []
  /\ (ends_visibly interface ->
      strip (py "interface " ++ interface) = py "interface " ++ interface)
  /\ (contains_ipv4 interface = false ->
      Forall (fun l => contains_ipv4 l = false)
        (render_interface_config action interface ip_address subnet_mask)).
Proof.
  intros Hact Hi. rewrite render_delete_lines by done.
  split; [done|]. split; [|split].
  - apply nonempty_true.
    by apply (strip_visible_nonempty 105 (py "nterface " ++ interface)).
  - intros He.
    apply (strip_indented [] 105 (py "nterface ") interface);
      [apply blank_nil|done|done].
  - intros Hip. repeat constructor.
    apply contains_ipv4_strip. by rewrite contains_ipv4_interface.
Qed.

(** C6, as the code has it.  A second pass returns the first pass's output
    whenever no line of that output opens with a comment marker or with a
    recognized prompt prefix. *)
Theorem sanitizer_idempotent_on_plain_output config :
  Forall plain_line (process_generated_config config) ->
  process_generated_config (join [LF] (process_generated_config config))
  = process_generated_config config.
Proof.
  intros Hplain.
  rewrite (process_generated_config_lines (join _ _)).
  rewrite (process_generated_config_lines config) in *.
  pose proof (sanitized_commands (split_char LF config)) as Hcmd.
  pose proof (sanitized_single_lines _ (split_char_fields LF config)) as Hone.
  destruct (omap sanitize_line (split_char LF config)) as [|l ls] eqn:Hout;
    [done|].
  rewrite split_char_join by done. by apply omap_sanitize_plain.
Qed.

(** ** Concrete runs *)

Example sanitize_prompt_line :
  process_generated_config (py "Router(config)#interface Gi0/1")
  = [py "interface Gi0/1"].
Proof. vm_compute. reflexivity. Qed.

Example sanitize_comment : process_generated_config (py "# comment") = [].
Proof. vm_compute. reflexivity. Qed.

Example sanitize_empty : process_generated_config [] = [].
Proof. reflexivity. Qed.

(** C1. The sanitizer is meant to strip a prompt prefix at the start of a
    line only.  Once a line opens with a prefix, [replace] removes every
    occurrence of it in that line: here the second ["Router(config)#"], in
    the middle of the description, is gone as well, although the same text
    is kept when the line does not open with the prefix. *)
Theorem prefix_removed_inside_line :
  process_generated_config
    (py "Router(config)#description see Router(config)# prompt")
  = [py "description see  prompt"]
  /\ process_generated_config
       (py "Router(config)#description see Router(config)# prompt")
     <> [py "description see Router(config)# prompt"]
  /\ process_generated_config (py "description see Router(config)# prompt")
     = [py "description see Router(config)# prompt"].
Proof.
  split; [by vm_compute|]. split; [|by vm_compute].
  vm_compute. discriminate.
Qed.

(** C6 fails as stated: the first pass strips the prompt and keeps
    ["# uplink"], which the second pass drops as a comment. *)
Lemma sanitizer_second_pass_differs :
  process_generated_config (py "Router(config)## uplink") = [py "# uplink"]
  /\ process_generated_config
       (join [LF] (process_generated_config (py "Router(config)## uplink")))
     <> process_generated_config (py "Router(config)## uplink").
Proof. split; [by vm_compute|]. vm_compute. discriminate. Qed.

(** C6 on a text with a prompt, a comment and indentation. *)
Lemma sanitizer_idempotent_witness :
  Forall plain_line
    (process_generated_config
       (py "Router(config)#interface Gi0/1" ++ LF :: py "! uplink"
        ++ LF :: py "  no shutdown  "))
  /\ process_generated_config
       (join [LF]
          (process_generated_config
             (py "Router(config)#interface Gi0/1" ++ LF :: py "! uplink"
              ++ LF :: py "  no shutdown  ")))
     = process_generated_config
         (py "Router(config)#interface Gi0/1" ++ LF :: py "! uplink"
          ++ LF :: py "  no shutdown  ").
Proof.
  assert (Forall plain_line
    (process_generated_config
       (py "Router(config)#interface Gi0/1" ++ LF :: py "! uplink"
        ++ LF :: py "  no shutdown  "))) as Hplain.
  { vm_compute. repeat constructor. }
  split; [exact Hplain|].
  exact (sanitizer_idempotent_on_plain_output _ Hplain).
Defined.

(** C7 fails as stated: a line break inside the interface name yields a
    fourth line, and a mask that ends in a space is in no line. *)
Lemma create_with_line_break_renders_four_lines :
  render_interface_config (py "create")
    (py "Gi0/1" ++ LF :: py "shutdown") (py "10.0.0.1") (py "255.255.255.0 ")
  = [py "interface Gi0/1"; py "shutdown";
     py "ip address 10.0.0.1 255.255.255.0"; py "no shutdown"]
  /\ length (render_interface_config (py "create")
               (py "Gi0/1" ++ LF :: py "shutdown") (py "10.0.0.1")
               (py "255.255.255.0 ")) <> 3%nat
  /\ existsb (contains (py "255.255.255.0 "))
       (render_interface_config (py "create")
          (py "Gi0/1" ++ LF :: py "shutdown") (py "10.0.0.1")
          (py "255.255.255.0 ")) = false.
Proof. split; [by vm_compute|]. split; [by vm_compute|by vm_compute]. Qed.

(** C7 on the record of the end-to-end scenario. *)
Lemma create_renders_three_lines_witness :
  (no_linebreak (py "Gi0/1") /\ no_linebreak (py "10.0.0.1")
   /\ no_linebreak (py "255.255.255.0")
   /\ ends_visibly (py "Gi0/1") /\ ends_visibly (py "255.255.255.0"))
  /\ render_interface_config (py "create") (py "Gi0/1") (py "10.0.0.1")
       (py "255.255.255.0")
     = [py "interface Gi0/1"; py "ip address 10.0.0.1 255.255.255.0";
        py "no shutdown"].
Proof.
  assert (no_linebreak (py "Gi0/1")) as H1
    by (apply no_linebreak_py_decide; reflexivity).
  assert (no_linebreak (py "10.0.0.1")) as H2
    by (apply no_linebreak_py_decide; reflexivity).
  assert (no_linebreak (py "255.255.255.0")) as H3
    by (apply no_linebreak_py_decide; reflexivity).
  assert (ends_visibly (py "Gi0/1")) as H4 by (split; [reflexivity|discriminate]).
  assert (ends_visibly (py "255.255.255.0")) as H5
    by (split; [reflexivity|discriminate]).
  split; [tauto|].
  exact (proj1 (create_renders_three_lines _ _ _ H1 H2 H3 H4 H5)).
Defined.

(** C8 fails as stated: a line break inside the interface name yields a
    fourth line, and whatever address the name carries is rendered. *)
Lemma delete_with_line_break_renders_four_lines :
  render_interface_config (py "delete")
    (py "Gi0/1" ++ LF :: py "ip address 10.0.0.1 255.255.255.0") [] []
  = [py "interface Gi0/1"; py "ip address 10.0.0.1 255.255.255.0";
     py "no ip address"; py "shutdown"]
  /\ length (render_interface_config (py "delete")
               (py "Gi0/1" ++ LF :: py "ip address 10.0.0.1 255.255.255.0")
               [] []) <> 3%nat
  /\ existsb contains_ipv4
       (render_interface_config (py "delete")
          (py "Gi0/1" ++ LF :: py "ip address 10.0.0.1 255.255.255.0")
          [] []) = true.
Proof. split; [by vm_compute|]. split; [by vm_compute|by vm_compute]. Qed.

(** C8 on the same interface. *)
Lemma delete_renders_three_lines_witness :
  (py "delete" <> py "create" /\ no_linebreak (py "Gi0/1"))
  /\ render_interface_config (py "delete") (py "Gi0/1") [] []
     = [strip (py "interface Gi0/1"); py "no ip address"; py "shutdown"].
Proof.
  assert (py "delete" <> py "create") as H1 by discriminate.
  assert (no_linebreak (py "Gi0/1")) as H2
    by (apply no_linebreak_py_decide; reflexivity).
  split; [tauto|].
  exact (proj1 (delete_renders_three_lines _ (py "Gi0/1") [] [] H1 H2)).
Defined.

(** C2 fails as stated: with an empty command list and a device that
    answers, [send_config] still calls [send_config_set] (once, with the
    empty list) before it returns the empty output. *)
Lemma empty_deployment_calls_apply :
  @send_config reachable R1_conn_info [] (@State reachable [] [])
  = (Ret [],
     @State reachable []
       [ConnectHandler R1_conn_info; Enable 7; SendConfigSet 7 [];
        Disconnect 7])
  /\ count is_apply
       (log (@send_config reachable R1_conn_info [] (@State reachable [] [])).2)
     <> 0%nat.
Proof. split; [by vm_compute|]. vm_compute. discriminate. Qed.

(** C2 on a device that answers. *)
Lemma empty_deployment_applies_once_witness :
  @connect_device reachable R1_conn_info (@State reachable [] [])
  = (Ret (Some 7),
     @State reachable [] [ConnectHandler R1_conn_info; Enable 7])
  /\ count is_apply
       (log (@send_config reachable R1_conn_info [] (@State reachable [] [])).2)
     = 1%nat.
Proof.
  assert (@connect_device reachable R1_conn_info (@State reachable [] [])
          = (Ret (Some 7),
             @State reachable [] [ConnectHandler R1_conn_info; Enable 7]))
    as Hopen by (vm_compute; reflexivity).
  split; [exact Hopen|].
  exact (proj2 (proj2 (proj2
    (@empty_deployment_applies_once reachable _ _ _ _ Hopen)))).
Defined.

(** C4 on a device that cannot be reached. *)
Lemma open_failure_sends_nothing_witness :
  @connect_device unreachable R1_conn_info (@State unreachable [] [])
  = (Ret None,
     @State unreachable []
       [ConnectHandler R1_conn_info;
        Echo (py "Error connecting to device 10.0.0.1: timed out")])
  /\ @send_config unreachable R1_conn_info [py "interface Gi0/1"]
       (@State unreachable [] [])
     = (Ret (py "Connection failed; configuration not sent."),
        @State unreachable []
          [ConnectHandler R1_conn_info;
           Echo (py "Error connecting to device 10.0.0.1: timed out")]).
Proof.
  assert (@connect_device unreachable R1_conn_info (@State unreachable [] [])
          = (Ret None,
             @State unreachable []
               [ConnectHandler R1_conn_info;
                Echo (py "Error connecting to device 10.0.0.1: timed out")]))
    as Hopen by (vm_compute; reflexivity).
  split; [exact Hopen|].
  exact (proj1 (@open_failure_sends_nothing unreachable _
                  [py "interface Gi0/1"] _ _ Hopen)).
Defined.

(** C3. [deploy_configuration] opens a session through
    [establish_connection] and applies through [send_commands]; neither
    closes it and nor does [deploy_configuration], on any path, whereas
    [send_config] closes in its [finally].  In the run below the session
    is opened, the commands are refused, [False] is returned and the log
    ends without a [Disconnect]. *)
Theorem deploy_configuration_leaves_session_open :
  (forall (P : Platform) device_data commands s,
     count is_disconnect
       (log (@deploy_configuration P device_data commands s).2)
     = count is_disconnect (log s))
  /\ @deploy_configuration refusing R1_record [py "interface Gi0/1"]
       (@State refusing [] [])
     = (Ret false,
        @State refusing []
          [ConnectHandler R1_conn_info; Enable 7;
           SendConfigSet 7 [py "interface Gi0/1"];
           Print (py "Configuration deployment failed: refused")]).
Proof.
  split.
  - intros P device_data commands s.
    apply deploy_configuration_never_disconnects.
  - vm_compute. reflexivity.
Qed.

(** Where [send_config] is given the same device, the session is closed. *)
Example send_config_closes_refused_session :
  @send_config refusing R1_conn_info [py "interface Gi0/1"]
    (@State refusing [] [])
  = (Ret (py "Error sending configuration: refused"),
     @State refusing []
       [ConnectHandler R1_conn_info; Enable 7;
        SendConfigSet 7 [py "interface Gi0/1"]; Disconnect 7]).
Proof. vm_compute. reflexivity. Qed.

(** C5 on three devices, the backend timing out for the second. *)
Lemma generation_failure_skips_device_witness :
  let body := @main_loop_body reachable (py "enable the uplink") in
  let s0 := @State reachable backend_script [] in
  let s := (for_each body [named (py "R1")] s0).2 in
  let text := py "Error communicating with Ollama: timed out" in
  for_each body [named (py "R1")] s0 = (Ret tt, s)
  /\ for_each body [named (py "R1"); named (py "R2"); named (py "R3")] s0
     = for_each body [named (py "R3")]
         (@State reachable (drop 2 backend_script)
            (log s ++ skipped_device_log (named (py "R2"))
                        (py "enable the uplink") text)).
Proof.
  intros body s0 s text.
  assert (for_each body [named (py "R1")] s0 = (Ret tt, s)) as Hbefore
    by (vm_compute; reflexivity).
  assert (@requests_post reachable ollama_url
            (generation_payload (named (py "R2")) (py "enable the uplink")) 60
            (world s)
          = (Raise (Exc true (py "timed out")), drop 2 backend_script))
    as Hpost by (vm_compute; reflexivity).
  assert (generation_failure (Raise (Exc true (py "timed out"))) text) as Hfail
    by (apply (backend_call_failed _ (Exc true (py "timed out"))); reflexivity).
  split; [exact Hbefore|].
  exact (proj1 (@generation_failure_skips_device reachable
                  (py "enable the uplink") [named (py "R1")] (named (py "R2"))
                  [named (py "R3")] s0 s _ _ text Hbefore Hpost Hfail)).
Defined.

(** Three devices, the second one's backend call failing: the operator is
    asked about the first and the third only, and all three are completed. *)
Example three_devices_second_fails :
  let run :=
    @for_each reachable _ (@main_loop_body reachable (py "enable the uplink"))
      [named (py "R1"); named (py "R2"); named (py "R3")]
      (@State reachable backend_script []) in
  run.1 = Ret tt
  /\ List.filter is_input (log run.2)
     = [ Input (LF :: py "Apply configuration to R1? (y/N): ");
         Input (LF :: py "Apply configuration to R3? (y/N): ") ]
  /\ List.filter
       (fun ev => match ev with
                  | Print s => startswith (LF :: py "Completed") s
                  | _ => false
                  end) (log run.2)
     = [ Print (LF :: py "Completed processing for R1");
         Print (LF :: py "Completed processing for R2");
         Print (LF :: py "Completed processing for R3") ].
Proof. vm_compute. repeat split; reflexivity. Qed.

(** A backend that answers 200 with generated text opening with ["Error"]:
    the text is classified as a failure. *)
Lemma error_prefix_decides_generation_witness :
  @requests_post reachable ollama_url
     (generation_payload R1_record (py "recover the ports")) 60
     [generated (py "Error-disabled ports: errdisable recovery cause all")]
  = (generated (py "Error-disabled ports: errdisable recovery cause all"), [])
  /\ (@generate_device_config reachable R1_record (py "recover the ports")
        (@State reachable
           [generated (py "Error-disabled ports: errdisable recovery cause all")]
           [])).1
     = Ret None.
Proof.
  split; [reflexivity|].
  exact (proj2 (proj2 (proj2 (@error_prefix_decides_generation reachable)))
           R1_record (py "recover the ports")
           (@State reachable
              [generated (py "Error-disabled ports: errdisable recovery cause all")]
              [])
           [] (py "Error-disabled ports: errdisable recovery cause all")
           eq_refl eq_refl).
Defined.

(** A text the model generated that opens with ["Error"] is discarded. *)
Example generated_text_opening_with_Error_is_discarded :
  (@generate_device_config reachable R1_record (py "recover the ports")
     (@State reachable
        [generated (py "Errdisable recovery is off; errdisable recovery cause all")]
        [])).1
  = Ret (Some (py "Errdisable recovery is off; errdisable recovery cause all"))
  /\ (@generate_device_config reachable R1_record (py "recover the ports")
        (@State reachable
           [generated (py "Error-disabled ports: errdisable recovery cause all")]
           [])).1
     = Ret None.
Proof. vm_compute. split; reflexivity. Qed.

(** * Further properties of the code *)

(** ** The sanitizer on whole texts *)

Lemma split_char_app_sep sep a b :
  split_char sep (a ++ sep :: b) = split_char sep a ++ split_char sep b.
Proof.
  induction a as [|c r IH].
  - simpl. by rewrite N.eqb_refl.
  - change ((c :: r) ++ sep :: b) with (c :: (r ++ sep :: b)).
    rewrite !split_char_cons, IH. destruct (c =? sep); [done|].
    pose proof (split_char_nonnil sep r).
    by destruct (split_char sep r).
Qed.

Lemma process_generated_config_app_LF a b :
  process_generated_config (a ++ LF :: b)
  = process_generated_config a ++ process_generated_config b.
Proof.
  rewrite !process_generated_config_lines, split_char_app_sep.
  apply omap_app.
Qed.

(** X1. Sanitizing two texts joined by a newline gives the commands of
    the first followed by the commands of the second. *)
Theorem sanitize_concatenation a b :
  process_generated_config (a ++ LF :: b)
  = process_generated_config a ++ process_generated_config b.
Proof. apply process_generated_config_app_LF. Qed.

Lemma sanitize_trailing_CR x :
  process_generated_config (x ++ [CR]) = process_generated_config x.
Proof.
  rewrite !process_generated_config_lines.
  assert (blank [CR]) as Hb by (by repeat constructor).
  pose proof (sanitize_lines_blank_r x [CR] Hb []) as Hr.
  by rewrite !cons_head_nil in Hr by apply split_char_nonnil.
Qed.

(** X2. Line endings do not matter: lines joined with CR LF give the same
    commands as the same lines joined with LF. *)
Theorem sanitize_crlf ls :
  process_generated_config (join [CR; LF] ls)
  = process_generated_config (join [LF] ls).
Proof.
  induction ls as [|x [|y rest] IH]; [done|done|].
  change (join [CR; LF] (x :: y :: rest))
    with (x ++ CR :: LF :: join [CR; LF] (y :: rest)).
  change (join [LF] (x :: y :: rest)) with (x ++ LF :: join [LF] (y :: rest)).
  change (x ++ CR :: LF :: join [CR; LF] (y :: rest))
    with (x ++ [CR] ++ LF :: join [CR; LF] (y :: rest)).
  rewrite app_assoc, !process_generated_config_app_LF, sanitize_trailing_CR.
  by rewrite IH.
Qed.

(** X3. A list of clean commands goes through the sanitizer unchanged:
    non-empty trimmed lines without a newline that open with neither a
    comment marker nor a prompt prefix, joined by newlines, come back as
    they were. *)
Theorem sanitize_clean_commands ls :
  Forall command_line ls -> Forall plain_line ls ->
  Forall (fun l => LF ∉ l) ls ->
  process_generated_config (join [LF] ls) = ls.
Proof.
  intros Hcmd Hplain Hone. rewrite process_generated_config_lines.
  destruct ls as [|l ls]; [done|].
  rewrite split_char_join by done. by apply omap_sanitize_plain.
Qed.

Lemma omap_sanitize_length ls :
  (length (omap sanitize_line ls) <= length ls)%nat.
Proof.
  induction ls as [|l ls IH]; simpl; [lia|].
  unfold omap in IH. destruct (sanitize_line l); simpl; lia.
Qed.

(** X4. Every command is a single line made of characters of the input,
    and there are at most as many commands as the text has lines. *)
Theorem sanitize_single_lines config :
  Forall (fun l => (LF ∉ l) /\ forall c, c ∈ l -> c ∈ config)
    (process_generated_config config)
  /\ (length (process_generated_config config)
      <= length (split_char LF config))%nat.
Proof.
  rewrite process_generated_config_lines. split; [|apply omap_sanitize_length].
  pose proof (split_char_fields LF config) as Hone.
  assert (Forall (fun l => forall c, c ∈ l -> c ∈ config)
            (split_char LF config)) as Hsub.
  { clear Hone. induction config as [|x r IH].
    - by repeat constructor.
    - rewrite split_char_cons. destruct (x =? LF).
      + constructor; [by intros c ?%elem_of_nil|].
        eapply Forall_impl; [exact IH|]. intros l Hl c Hc. right. by apply Hl.
      + pose proof (split_char_nonnil LF r).
        destruct IH as [|l ls Hl Hls]; [done|]. simpl. constructor.
        * intros c [->|Hc]%elem_of_cons; [left|right; by apply Hl].
        * eapply Forall_impl; [exact Hls|]. intros l' Hl' c Hc.
          right. by apply Hl'. }
  induction Hone as [|l ls Hl Hls IH]; [constructor|].
  apply Forall_cons in Hsub as [Hsl Hsls]. simpl.
  destruct (sanitize_line l) as [l'|] eqn:Hs; [|by apply IH].
  constructor; [|by apply IH]. split.
  - intros Hin. apply Hl. by eapply elem_of_sanitize_line.
  - intros c Hc. apply Hsl. by eapply elem_of_sanitize_line.
Qed.

(** ** Prompt prefixes *)

#[local] Arguments startswith p s : simpl nomatch.

Lemma startswith_app_l n x b :
  startswith n x = true -> startswith n (x ++ b) = true.
Proof.
  revert x. induction n as [|c n IH]; intros [|y x]; simpl; try done.
  intros [Hc Hn]%andb_true_iff. by rewrite Hc, IH.
Qed.

Lemma contains_app_l n x b :
  contains n x = true -> contains n (x ++ b) = true.
Proof.
  induction x as [|y x IH]; rewrite (contains_unfold n (_ ++ b)),
    (contains_unfold n).
  - rewrite orb_false_r. intros Hn. by rewrite (startswith_app_l n [] b Hn).
  - intros [Hs|Hc]%orb_true_iff.
    + by rewrite (startswith_app_l _ _ b Hs).
    + change ((y :: x) ++ b) with (y :: (x ++ b)). cbv iota.
      rewrite IH by done. apply orb_true_r.
Qed.

Lemma replace_from_skip old new pre x :
  replace_from old new (length pre) (pre ++ x) = replace_from old new 0 x.
Proof. induction pre as [|c pre IH]; [done|]. simpl. apply IH. Qed.

(** [replace] consumes a match at the start and goes on behind it. *)
Lemma replace_match o old' new x :
  replace (o :: old') new ((o :: old') ++ x)
  = new ++ replace (o :: old') new x.
Proof.
  unfold replace.
  change (replace_from (o :: old') new 0 ((o :: old') ++ x))
    with (if startswith (o :: old') ((o :: old') ++ x)
          then new ++ replace_from (o :: old') new (length old') (old' ++ x)
          else o :: replace_from (o :: old') new 0 (old' ++ x)).
  by rewrite contains_here, replace_from_skip.
Qed.

(** [replace] leaves a text without a match as it is. *)
Lemma replace_absent old new x :
  contains old x = false -> replace old new x = x.
Proof.
  destruct old as [|o old']; [by destruct x|].
  unfold replace. induction x as [|c x IH]; [done|].
  rewrite contains_unfold. intros [Hs Hc]%orb_false_iff.
  change (replace_from (o :: old') new 0 (c :: x))
    with (if startswith (o :: old') (c :: x)
          then new ++ replace_from (o :: old') new (length old') x
          else c :: replace_from (o :: old') new 0 x).
  rewrite Hs. f_equal. by apply IH.
Qed.

Lemma strip_rstrip s : strip (rstrip s) = strip s.
Proof.
  destruct (rstrip_split s) as (b & Hb & Heq).
  rewrite Heq at 2. by rewrite strip_app_blank_r.
Qed.

Lemma contains_rstrip n s : contains n s = false -> contains n (rstrip s) = false.
Proof.
  intros Hs. destruct (contains n (rstrip s)) eqn:Hc; [|done].
  destruct (rstrip_split s) as (b & _ & Heq).
  rewrite Heq, contains_app_l in Hs; done.
Qed.

Lemma strip_prefixed c p rest :
  isspace c = false -> rstrip (c :: p) = c :: p ->
  strip ((c :: p) ++ rest) = (c :: p) ++ rstrip rest.
Proof.
  intros Hc Hp. change ((c :: p) ++ rest) with (c :: (p ++ rest)).
  rewrite strip_visible by done.
  change (c :: (p ++ rest)) with ((c :: p) ++ rest). rewrite rstrip_app.
  destruct (rstrip rest); [by rewrite Hp, app_nil_r|done].
Qed.

Ltac prompt_case c p :=
  match goal with
  | Hrest : contains ?P (rstrip ?rest) = false |- _ =>
      assert (strip (P ++ rest) = P ++ rstrip rest) as ->
        by (apply (strip_prefixed c p); done);
      assert (nonempty (P ++ rstrip rest) = true) as -> by reflexivity;
      assert (startswith (py "#") (P ++ rstrip rest) = false) as ->
        by reflexivity;
      assert (startswith (py "!") (P ++ rstrip rest) = false) as ->
        by reflexivity;
      assert (replace P [] (P ++ rstrip rest) = rstrip rest) as Hrep
        by (transitivity ([] ++ replace P [] (rstrip rest));
            [exact (replace_match c p [] (rstrip rest))
            |exact (replace_absent P [] _ Hrest)])
  end.

Lemma sanitize_line_prompt P rest :
  P ∈ [prefix_Router; prefix_config; prefix_R1] ->
  contains P rest = false ->
  sanitize_line (P ++ rest)
  = if nonempty (strip rest) then Some (strip rest) else None.
Proof.
  intros HP Hrest. apply contains_rstrip in Hrest.
  rewrite sanitize_line_unfold. unfold strip_prompt.
  repeat (apply elem_of_cons in HP as [->|HP]); [| | |by apply elem_of_nil in HP].
  - prompt_case 82 (py "outer(config)#").
    rewrite contains_here, Hrep, strip_rstrip. reflexivity.
  - prompt_case 40 (py "config)#").
    assert (startswith prefix_Router (prefix_config ++ rstrip rest) = false)
      as -> by reflexivity.
    rewrite contains_here, Hrep, strip_rstrip. reflexivity.
  - prompt_case 82 (py "1(config)#").
    assert (startswith prefix_Router (prefix_R1 ++ rstrip rest) = false)
      as -> by reflexivity.
    assert (startswith prefix_config (prefix_R1 ++ rstrip rest) = false)
      as -> by reflexivity.
    rewrite contains_here, Hrep, strip_rstrip. reflexivity.
Qed.

(** X5. A line that opens with a recognized prompt prefix and has no
    further occurrence of it loses exactly that prefix and the whitespace
    around what is left; the line is dropped when nothing is left. *)
Theorem sanitize_prompt_prefix P indent rest :
  P ∈ [prefix_Router; prefix_config; prefix_R1] ->
  blank indent -> (LF ∉ indent) -> (LF ∉ rest) ->
  contains P rest = false ->
  process_generated_config (indent ++ P ++ rest)
  = if nonempty (strip rest) then [strip rest] else [].
Proof.
  intros HP Hind Hi Hr Hrest. rewrite process_generated_config_lines.
  rewrite split_char_one.
  - simpl. rewrite sanitize_line_app_blank_l, sanitize_line_prompt by done.
    by destruct (nonempty (strip rest)).
  - rewrite !not_elem_of_app. repeat split; try done.
    repeat (apply elem_of_cons in HP as [->|HP]);
      [| | |by apply elem_of_nil in HP];
      apply (bool_decide_unpack _); by vm_compute.
Qed.

(** ** Rendering, for arbitrary arguments *)

#[local] Arguments render_line : simpl never.

Lemma list_pair_ind (P : str -> Prop) :
  P [] -> (forall c, P [c]) ->
  (forall c d r, P r -> P (d :: r) -> P (c :: d :: r)) ->
  forall s, P s.
Proof.
  intros H0 H1 H2 s. enough (P s /\ forall c, P (c :: s)) by tauto.
  induction s as [|d r [IH1 IH2]]; [by split|].
  split; [apply IH2|]. intros c. by apply H2.
Qed.

Lemma splitlines_step c r :
  splitlines (c :: r) =
  match r with
  | c2 :: r2 =>
      if (c =? CR) && (c2 =? LF) then [] :: splitlines r2
      else if islinebreak c then [] :: splitlines r
      else cons_head [c] (splitlines r)
  | [] => if islinebreak c then [[]] else [[c]]
  end.
Proof.
  destruct r as [|c2 r2]; [done|].
  change (splitlines (c :: c2 :: r2)) with
    (if (c =? CR) && (c2 =? LF) then [] :: splitlines r2
     else if islinebreak c then [] :: splitlines (c2 :: r2)
     else match splitlines (c2 :: r2) with
          | l :: ls => (c :: l) :: ls
          | [] => [[c]]
          end).
  by destruct (splitlines (c2 :: r2)).
Qed.

Lemma splitlines_nonnil c r : splitlines (c :: r) <> [].
Proof.
  rewrite splitlines_step. destruct r as [|c2 r2]; repeat case_match; try done;
    by destruct (splitlines _).
Qed.

Lemma cons_head_app p ls ls' :
  ls <> [] -> cons_head p (ls ++ ls') = cons_head p ls ++ ls'.
Proof. by destruct ls. Qed.

(** A line feed always ends the line it is on: what follows it is split
    on its own. *)
Lemma splitlines_app_LF x z :
  splitlines (x ++ LF :: z) = splitlines (x ++ [LF]) ++ splitlines z.
Proof.
  induction x as [|c|c d r IHr IHdr] using list_pair_ind.
  - simpl app. rewrite !splitlines_step. by destruct z.
  - change ([c] ++ LF :: z) with (c :: LF :: z).
    change ([c] ++ [LF]) with (c :: [LF]).
    rewrite (splitlines_step c), (splitlines_step c [LF]).
    change (LF =? LF) with true. rewrite andb_true_r.
    destruct (c =? CR); [done|].
    change (splitlines [LF]) with [[] : str].
    assert (splitlines (LF :: z) = [] :: splitlines z) as ->
      by (rewrite splitlines_step; by destruct z).
    by destruct (islinebreak c).
  - change ((c :: d :: r) ++ LF :: z) with (c :: d :: (r ++ LF :: z)).
    change ((c :: d :: r) ++ [LF]) with (c :: d :: (r ++ [LF])).
    rewrite (splitlines_step c), (splitlines_step c (d :: _)).
    destruct ((c =? CR) && (d =? LF)); [by rewrite IHr|].
    change (d :: r ++ LF :: z) with ((d :: r) ++ LF :: z).
    change (d :: r ++ [LF]) with ((d :: r) ++ [LF]).
    rewrite IHdr. destruct (islinebreak c); [done|].
    apply cons_head_app. apply splitlines_nonnil.
Qed.

(** A line feed appended to a text adds at most one empty line. *)
Lemma splitlines_snoc_LF x :
  exists e, (e = [] \/ e = [[]]) /\ splitlines (x ++ [LF]) = splitlines x ++ e.
Proof.
  induction x as [|c|c d r IHr IHdr] using list_pair_ind.
  - exists [[]]. by split; [right|].
  - change ([c] ++ [LF]) with (c :: [LF]).
    rewrite (splitlines_step c [LF]), (splitlines_step c []).
    change (LF =? LF) with true. rewrite andb_true_r.
    change (splitlines [LF]) with [[] : str].
    destruct (c =? CR) eqn:Hc.
    + apply N.eqb_eq in Hc as ->. exists []. by split; [left|].
    + destruct (islinebreak c).
      * exists [[]]. by split; [right|].
      * exists []. by split; [left|].
  - change ((c :: d :: r) ++ [LF]) with (c :: d :: (r ++ [LF])).
    rewrite (splitlines_step c (d :: _)), (splitlines_step c (d :: r)).
    destruct IHr as (e1 & He1 & Hr). destruct IHdr as (e2 & He2 & Hdr).
    destruct ((c =? CR) && (d =? LF)).
    + exists e1. split; [done|]. by rewrite Hr.
    + change (d :: r ++ [LF]) with ((d :: r) ++ [LF]). rewrite Hdr.
      exists e2. split; [done|]. destruct (islinebreak c); [done|].
      apply cons_head_app, splitlines_nonnil.
Qed.

Lemma commands_of_snoc_LF x : commands_of (x ++ [LF]) = commands_of x.
Proof.
  unfold commands_of. destruct (splitlines_snoc_LF x) as (e & [->| ->] & ->).
  - by rewrite app_nil_r.
  - rewrite omap_app. simpl. by rewrite app_nil_r.
Qed.

Lemma commands_of_indent n z :
  commands_of (replicate n 32 ++ z) = commands_of z.
Proof.
  unfold commands_of. induction n as [|n IH]; [done|].
  change (replicate (S n) 32 ++ z) with (32 :: (replicate n 32 ++ z)).
  rewrite splitlines_cons by done. rewrite <- IH.
  destruct (splitlines (replicate n 32 ++ z)) as [|l ls]; simpl; [done|].
  - unfold render_line.
    change (32 :: l) with ([32] ++ l).
    by rewrite strip_app_blank_l by (by repeat constructor).
Qed.

(** The commands of two texts separated by a line feed and any
    indentation are the commands of the first, then of the second. *)
Lemma commands_of_app n x z :
  commands_of (x ++ LF :: replicate n 32 ++ z)
  = commands_of x ++ commands_of z.
Proof.
  unfold commands_of at 1. rewrite splitlines_app_LF, omap_app.
  fold (commands_of (x ++ [LF])). fold (commands_of (replicate n 32 ++ z)).
  by rewrite commands_of_snoc_LF, commands_of_indent.
Qed.

Lemma commands_of_app0 x z :
  commands_of (x ++ LF :: z) = commands_of x ++ commands_of z.
Proof. apply (commands_of_app 0). Qed.

Lemma render_interface_config_commands action interface ip_address subnet_mask :
  render_interface_config action interface ip_address subnet_mask
  = commands_of
      (render (interface_template action interface ip_address subnet_mask).2
              (interface_template action interface ip_address subnet_mask).1).
Proof. apply render_interface_config_lines. Qed.

Lemma render_interface_config_by_line
    action interface ip_address subnet_mask :
  render_interface_config action interface ip_address subnet_mask
  = if decide (action = py "create")
    then commands_of (py "interface " ++ interface)
         ++ commands_of (py "ip address " ++ ip_address ++ py " " ++ subnet_mask)
         ++ [py "no shutdown"]
    else commands_of (py "interface " ++ interface)
         ++ [py "no ip address"; py "shutdown"].
Proof.
  rewrite render_interface_config_commands. unfold interface_template.
  destruct (decide (action = py "create")) as [_|_]; cbn [fst snd].
  - rewrite rendered_create.
    change (py "        interface ") with (replicate 8 32 ++ py "interface ").
    change (py "            ip address ")
      with (replicate 12 32 ++ py "ip address ").
    rewrite !commands_of_app0, <- !app_assoc, !commands_of_indent.
    reflexivity.
  - rewrite rendered_delete.
    change (py "        interface ") with (replicate 8 32 ++ py "interface ").
    rewrite !commands_of_app0, <- !app_assoc, !commands_of_indent.
    reflexivity.
Qed.

(** X6. Whatever the arguments hold, the template lines are rendered one
    by one: the create intent yields the commands of the interface line,
    then those of the address line, then [no shutdown]; any other action
    yields the commands of the interface line, then [no ip address] and
    [shutdown], and does not depend on the address or the mask. *)
Theorem render_line_by_line action interface ip_address subnet_mask :
  render_interface_config action interface ip_address subnet_mask
  = if decide (action = py "create")
    then commands_of (py "interface " ++ interface)
         ++ commands_of (py "ip address " ++ ip_address ++ py " " ++ subnet_mask)
         ++ [py "no shutdown"]
    else commands_of (py "interface " ++ interface)
         ++ [py "no ip address"; py "shutdown"].
Proof. apply render_interface_config_by_line. Qed.

(** A text that opens with break-free words starts its first line with
    them. *)
Lemma splitlines_app_text p w :
  no_linebreak p -> p <> [] ->
  splitlines (p ++ w) = cons_head p (splitlines w).
Proof.
  induction 1 as [|c p Hc Hp IH]; [done|]. intros _.
  change ((c :: p) ++ w) with (c :: (p ++ w)). rewrite splitlines_cons by done.
  destruct p as [|d p]; [done|].
  rewrite IH by done. by rewrite cons_head_cons_head.
Qed.

Lemma commands_of_interface interface :
  exists first rest,
    commands_of (py "interface " ++ interface) = first :: rest
    /\ startswith (py "interface") first = true.
Proof.
  unfold commands_of.
  rewrite splitlines_app_text by (no_linebreak_tac || done).
  assert (forall l, exists first,
            render_line (py "interface " ++ l) = Some first
            /\ startswith (py "interface") first = true) as Hline.
  { intros l. unfold render_line.
    change (py "interface " ++ l) with (py "interface" ++ (32 :: l)).
    assert (strip (py "interface" ++ 32 :: l)
            = py "interface" ++ rstrip (32 :: l)) as ->.
    { apply (strip_prefixed 105 (py "nterface")); done. }
    eexists. split; [reflexivity|apply contains_here]. }
  destruct (splitlines interface) as [|l ls].
  - eexists _, _. split; [reflexivity|by vm_compute].
  - destruct (Hline l) as (first & Hf & Hs).
    change (omap render_line (cons_head (py "interface ") (l :: ls)))
      with (match render_line (py "interface " ++ l) with
            | Some y => y :: omap render_line ls
            | None => omap render_line ls
            end).
    rewrite Hf. eauto.
Qed.

Lemma commands_of_address ip_address subnet_mask :
  commands_of (py "ip address " ++ ip_address ++ py " " ++ subnet_mask) <> [].
Proof.
  unfold commands_of.
  rewrite splitlines_app_text by (no_linebreak_tac || done).
  assert (forall l, render_line (py "ip address " ++ l) <> None) as Hline.
  { intros l. unfold render_line.
    assert (nonempty (strip (py "ip address " ++ l)) = true) as ->; [|done].
    by apply (strip_visible_nonempty 105 (py "p address " ++ l)). }
  destruct (splitlines _) as [|l ls]; [done|].
  specialize (Hline l).
  change (omap render_line (cons_head (py "ip address ") (l :: ls)))
    with (match render_line (py "ip address " ++ l) with
          | Some y => y :: omap render_line ls
          | None => omap render_line ls
          end).
  by destruct (render_line (py "ip address " ++ l)).
Qed.

(** X7. Whatever the arguments hold, the rendered list opens with a
    command that begins with [interface], ends with [no shutdown] (create)
    or [shutdown] (any other action), and has at least three commands. *)
Theorem render_frame action interface ip_address subnet_mask :
  exists first rest,
    render_interface_config action interface ip_address subnet_mask
    = first :: rest
    /\ startswith (py "interface") first = true
    /\ last rest
       = Some (if decide (action = py "create")
               then py "no shutdown" else py "shutdown")
    /\ (2 <= length rest)%nat.
Proof.
  rewrite render_interface_config_by_line.
  destruct (commands_of_interface interface) as (first & rest & -> & Hs).
  exists first. destruct (decide (action = py "create")) as [_|_].
  - pose proof (commands_of_address ip_address subnet_mask) as Hne.
    set (address := commands_of _) in *.
    exists (rest ++ address ++ [py "no shutdown"]).
    split; [done|]. split; [done|].
    rewrite app_assoc, last_snoc. split; [done|].
    rewrite !length_app. destruct address; [done|]. simpl. lia.
  - exists (rest ++ [py "no ip address"; py "shutdown"]).
    split; [done|]. split; [done|].
    change [py "no ip address"; py "shutdown"]
      with ([py "no ip address"] ++ [py "shutdown"]).
    rewrite app_assoc, last_snoc. split; [done|].
    rewrite !length_app. simpl. lia.
Qed.

(** ** Sessions: what else the gateway does *)

Section Sessions.
Context `{Platform}.


(** X9. When the connection is made and [enable] then fails, the session
    that was opened is dropped without being closed: [send_config] reports
    a failed connection and no [disconnect] is called. *)
Theorem enable_failure_leaves_session_open device commands s conn w1 e w2 :
  netmiko_ConnectHandler device (world s) = (Ret conn, w1) ->
  netmiko_enable conn w1 = (Raise e, w2) ->
  is_Exception e = true ->
  send_config device commands s
  = (Ret (py "Connection failed; configuration not sent."),
     State w2 (log s ++ [ConnectHandler device; Enable conn;
                         Echo (py "Error connecting to device "
                               ++ format_get (device !! py "host") ++ py ": "
                               ++ exc_str e)]))
  /\ count is_open (log (send_config device commands s).2)
     = S (count is_open (log s))
  /\ count is_disconnect (log (send_config device commands s).2)
     = count is_disconnect (log s).
Proof.
  intros Hopen Henable He.
  assert (connect_device device s
          = (Ret None,
             State w2 (log s ++ [ConnectHandler device; Enable conn;
                         Echo (py "Error connecting to device "
                               ++ format_get (device !! py "host") ++ py ": "
                               ++ exc_str e)]))) as Hconn.
  { by rewrite connect_device_run, Hopen, Henable, He. }
  rewrite (send_config_closed _ _ _ _ Hconn). split; [done|].
  simpl. rewrite !count_app. unfold count. simpl. lia.
Qed.

(** X10. Once the session is open, [send_config] passes exactly the list
    it was given to [send_config_set], once, and then closes the session,
    once, however the call ended. *)
Theorem send_config_applies_then_closes device commands s conn s1 :
  connect_device device s = (Ret (Some conn), s1) ->
  log (send_config device commands s).2
  = log s1 ++ [SendConfigSet conn commands; Disconnect conn].
Proof.
  intros Hopen. rewrite (send_config_run _ _ _ _ _ Hopen).
  destruct (netmiko_send_config_set conn commands (world s1)) as [r w1].
  by destruct (netmiko_disconnect conn w1) as [d w2].
Qed.

(** X11. What [send_config] returns once the session is open.  If
    [disconnect] raises, that is what [send_config] raises, even when the
    commands had been applied; otherwise it returns the device output, or
    the text ["Error sending configuration: "] and the error for an
    [Exception] of [send_config_set]. *)
Theorem send_config_result device commands s conn s1 r w1 d w2 :
  connect_device device s = (Ret (Some conn), s1) ->
  netmiko_send_config_set conn commands (world s1) = (r, w1) ->
  netmiko_disconnect conn w1 = (d, w2) ->
  (send_config device commands s).1 =
  match d, r with
  | Raise e, _ => Raise e
  | Ret _, Ret out => Ret out
  | Ret _, Raise e =>
      if is_Exception e
      then Ret (py "Error sending configuration: " ++ exc_str e)
      else Raise e
  end.
Proof.
  intros Hopen Happly Hclose. rewrite (send_config_run _ _ _ _ _ Hopen).
  rewrite Happly, Hclose. simpl. by destruct d, r.
Qed.

Lemma getitem_run dev_data key s :
  getitem dev_data key s
  = (match dev_data !! key with
     | Some v => Ret v
     | None => Raise (KeyError key)
     end, s).
Proof. unfold getitem. by destruct (dev_data !! key). Qed.

(** [get_conn_info] reads three fields, in this order, and touches
    nothing. *)
Lemma get_conn_info_run dev_data s :
  get_conn_info dev_data s =
  (match dev_data !! py "Management IP", dev_data !! py "Username",
         dev_data !! py "Password" with
   | Some host, Some username, Some password =>
       Ret (<[py "device_type" := py "cisco_ios"]>
              (<[py "host" := host]>
                 (<[py "username" := username]>
                    (<[py "password" := password]>
                       (<[py "secret" := password]> ∅)))))
   | None, _, _ => Raise (KeyError (py "Management IP"))
   | Some _, None, _ => Raise (KeyError (py "Username"))
   | Some _, Some _, None => Raise (KeyError (py "Password"))
   end, s).
Proof.
  unfold get_conn_info, getitem, mbind, M_bind, mret, M_ret, raise.
  destruct (dev_data !! py "Management IP"); cbn beta iota; [|done].
  destruct (dev_data !! py "Username"); cbn beta iota; [|done].
  by destruct (dev_data !! py "Password").
Qed.

(** X12. A record that lacks the management address, the user name or the
    password makes [establish_connection] and [deploy_configuration] raise
    a [KeyError] for one of these fields before any connection is
    attempted and before anything is printed. *)
Theorem missing_field_raises_before_connecting device_data commands s key :
  key ∈ [py "Management IP"; py "Username"; py "Password"] ->
  device_data !! key = None ->
  exists missing,
    missing ∈ [py "Management IP"; py "Username"; py "Password"]
    /\ device_data !! missing = None
    /\ establish_connection device_data s = (Raise (KeyError missing), s)
    /\ deploy_configuration device_data commands s
       = (Raise (KeyError missing), s).
Proof.
  intros Hkey Hnone.
  assert (exists missing,
            missing ∈ [py "Management IP"; py "Username"; py "Password"]
            /\ device_data !! missing = None
            /\ get_conn_info device_data s = (Raise (KeyError missing), s))
    as (missing & Hin & Hmiss & Hrun).
  { rewrite get_conn_info_run.
    destruct (device_data !! py "Management IP") eqn:H1;
      [|exists (py "Management IP"); repeat split; try done;
        rewrite !elem_of_cons; auto].
    destruct (device_data !! py "Username") eqn:H2;
      [|exists (py "Username"); repeat split; try done;
        rewrite !elem_of_cons; auto].
    destruct (device_data !! py "Password") eqn:H3;
      [|exists (py "Password"); repeat split; try done;
        rewrite !elem_of_cons; auto].
    repeat (apply elem_of_cons in Hkey as [->|Hkey]); try congruence.
    by apply elem_of_nil in Hkey. }
  exists missing. repeat split; try done.
  - unfold establish_connection, mbind, M_bind. by rewrite Hrun.
  - unfold deploy_configuration, establish_connection, mbind, M_bind.
    by rewrite Hrun.
Qed.

Lemma deploy_configuration_run device_data commands s conn s1 :
  establish_connection device_data s = (Ret (Some conn), s1) ->
  deploy_configuration device_data commands s =
  let '(r, w) := netmiko_send_config_set conn commands (world s1) in
  let l := log s1 ++ [SendConfigSet conn commands] in
  match r with
  | Ret out =>
      (Ret true,
       State w (l ++ Print (py "Configuration deployment completed successfully")
                  :: match out with
                     | [] => []
                     | _ :: _ => [Print (py "Device response:"); Print out]
                     end))
  | Raise e =>
      if is_Exception e
      then (Ret false,
            State w (l ++ [Print (py "Configuration deployment failed: "
                                  ++ exc_str e)]))
      else (Raise e, State w l)
  end.
Proof.
  intros Hopen. unfold deploy_configuration.
  unfold mbind at 1, M_bind at 1. rewrite Hopen.
  unfold mbind at 1, M_bind at 1. rewrite send_commands_run.
  destruct (netmiko_send_config_set conn commands (world s1)) as [[out|e] w].
  - cbn [fst snd success output]. unfold print, mbind, M_bind, call, mret, M_ret.
    destruct out as [|c out]; simpl; by rewrite <- ?app_assoc.
  - destruct (is_Exception e); simpl; [|done].
    unfold print, mbind, M_bind, call, mret, M_ret. simpl.
    by rewrite <- ?app_assoc.
Qed.

(** X13. Once the session is established, [deploy_configuration] calls
    [send_config_set] exactly once, with the list it was given, and
    returns [True] exactly when that call returned; an [Exception] of the
    call makes it return [False]. *)
Theorem deploy_configuration_result device_data commands s conn s1 :
  establish_connection device_data s = (Ret (Some conn), s1) ->
  (deploy_configuration device_data commands s).1
  = match (netmiko_send_config_set conn commands (world s1)).1 with
    | Ret _ => Ret true
    | Raise e => if is_Exception e then Ret false else Raise e
    end
  /\ List.filter is_apply (log (deploy_configuration device_data commands s).2)
     = List.filter is_apply (log s1) ++ [SendConfigSet conn commands].
Proof.
  intros Hopen. rewrite (deploy_configuration_run _ _ _ _ _ Hopen).
  destruct (netmiko_send_config_set conn commands (world s1)) as [[out|e] w].
  - destruct out; simpl; (split; [done|]);
      rewrite !List.filter_app; simpl; by rewrite app_nil_r.
  - cbn [fst snd]. destruct (is_Exception e); cbn [fst snd log];
      (split; [done|]); rewrite !List.filter_app; cbn [List.filter is_apply];
      by rewrite ?app_nil_r.
Qed.

End Sessions.

(** ** The command line *)

Section CommandLineRuns.
Context `{Terminal}.

Lemma get_interface_brief_run device s conn s1 :
  connect_device device s = (Ret (Some conn), s1) ->
  get_interface_brief device s =
  let '(r, w1) :=
    netmiko_send_command conn (py "show ip interface brief") (world s1) in
  let '(d, w2) := netmiko_disconnect conn w1 in
  (match d with
   | Raise e => Raise e
   | Ret _ =>
       match r with
       | Ret out => Ret out
       | Raise e =>
           if is_Exception e
           then Ret (py "Error retrieving interface brief: " ++ exc_str e)
           else Raise e
       end
   end,
   State w2 (log s1 ++ [Disconnect conn])).
Proof.
  intros Hopen.
  unfold get_interface_brief, try_finally, try_except, send_command, call,
    mbind, M_bind, mret, M_ret.
  rewrite Hopen. cbn beta iota.
  destruct (netmiko_send_command _ _ _) as [[out|e] w1]; cbn [world log].
  - by destruct (netmiko_disconnect conn w1) as [[[]|e'] w2].
  - destruct (is_Exception e); cbn [world log];
      by destruct (netmiko_disconnect conn w1) as [[[]|e'] w2].
Qed.

(** X14. [get_interface_brief] never sends configuration.  Without a
    session it returns its failure text and does nothing more; with one it
    asks for the interface brief and closes the session exactly once,
    however the show command ended. *)
Theorem get_interface_brief_outcomes device s :
  count is_apply (log (get_interface_brief device s).2)
  = count is_apply (log s)
  /\ (forall s1,
        connect_device device s = (Ret None, s1) ->
        get_interface_brief device s
        = (Ret (py "Connection failed; cannot retrieve interface brief."), s1))
  /\ (forall conn s1,
        connect_device device s = (Ret (Some conn), s1) ->
        log (get_interface_brief device s).2 = log s1 ++ [Disconnect conn]
        /\ count is_disconnect (log (get_interface_brief device s).2)
           = S (count is_disconnect (log s))).
Proof.
  pose proof (connect_device_never_applies device s) as Happly.
  pose proof (connect_device_never_disconnects device s) as Hclose.
  split; [|split].
  - destruct (connect_device device s) as [[[conn|]|e] s1] eqn:Hopen.
    + rewrite (get_interface_brief_run _ _ _ _ Hopen).
      destruct (netmiko_send_command _ _ _) as [r w1].
      destruct (netmiko_disconnect conn w1) as [d w2]. simpl in *.
      rewrite count_snoc. simpl. lia.
    + unfold get_interface_brief, mbind, M_bind. by rewrite Hopen.
    + unfold get_interface_brief, mbind, M_bind. by rewrite Hopen.
  - intros s1 Hopen. unfold get_interface_brief, mbind, M_bind.
    by rewrite Hopen.
  - intros conn s1 Hopen. rewrite (get_interface_brief_run _ _ _ _ Hopen).
    rewrite Hopen in Hclose.
    destruct (netmiko_send_command _ _ _) as [r w1].
    destruct (netmiko_disconnect conn w1) as [d w2]. simpl in *.
    split; [done|]. rewrite count_snoc. simpl. lia.
Qed.

Lemma rendered_configure_create i a m :
  render configure_template_create
    (<[py "interface" := i]>
       (<[py "ip_address" := a]> (<[py "subnet" := m]> ∅)))
  = [] ++ LF :: (py "        interface " ++ i)
       ++ LF :: (py "         ip address " ++ a ++ py " " ++ m)
       ++ LF :: py "         no shutdown" ++ LF :: py "        ".
Proof.
  unfold render, configure_template_create.
  cbn [map concat render_segment].
  rewrite lookup_insert_eq.
  rewrite lookup_insert_ne, lookup_insert_eq by (by vm_compute).
  rewrite !lookup_insert_ne, lookup_insert_eq by (by vm_compute).
  cbn [default id].
  cbn [app]. rewrite app_nil_r, <- !app_assoc. by cbn [app].
Qed.

Lemma rendered_configure_delete i :
  render configure_template_delete (<[py "interface" := i]> ∅)
  = [] ++ LF :: (py "        interface " ++ i)
       ++ LF :: py "         no ip address"
       ++ LF :: py "         shutdown" ++ LF :: py "        ".
Proof.
  unfold render, configure_template_delete.
  cbn [map concat render_segment].
  rewrite lookup_insert_eq. cbn [default id].
  cbn [app]. rewrite app_nil_r, <- !app_assoc. by cbn [app].
Qed.

(** The templates of [configure] yield the commands of
    [render_interface_config], whatever the arguments hold. *)
Lemma configure_create_commands interface ip subnet :
  map strip
    (List.filter (fun line => nonempty (strip line))
       (splitlines
          (render configure_template_create
             (<[py "interface" := interface]>
                (<[py "ip_address" := ip]> (<[py "subnet" := subnet]> ∅))))))
  = render_interface_config (py "create") interface ip subnet.
Proof.
  rewrite comprehension_lines, rendered_configure_create,
    render_interface_config_by_line.
  destruct (decide (py "create" = py "create")) as [_|]; [|done].
  fold (commands_of ([] ++ LF :: (py "        interface " ++ interface)
       ++ LF :: (py "         ip address " ++ ip ++ py " " ++ subnet)
       ++ LF :: py "         no shutdown" ++ LF :: py "        ")).
  change (py "        interface ") with (replicate 8 32 ++ py "interface ").
  change (py "         ip address ") with (replicate 9 32 ++ py "ip address ").
  rewrite !commands_of_app0, <- !app_assoc, !commands_of_indent.
  reflexivity.
Qed.

Lemma configure_delete_commands action interface ip subnet :
  action <> py "create" ->
  map strip
    (List.filter (fun line => nonempty (strip line))
       (splitlines
          (render configure_template_delete (<[py "interface" := interface]> ∅))))
  = render_interface_config action interface ip subnet.
Proof.
  intros Hact.
  rewrite comprehension_lines, rendered_configure_delete,
    render_interface_config_by_line.
  destruct (decide (action = py "create")) as [|_]; [done|].
  fold (commands_of ([] ++ LF :: (py "        interface " ++ interface)
       ++ LF :: py "         no ip address"
       ++ LF :: py "         shutdown" ++ LF :: py "        ")).
  change (py "        interface ") with (replicate 8 32 ++ py "interface ").
  rewrite !commands_of_app0, <- !app_assoc, !commands_of_indent.
  reflexivity.
Qed.

Lemma bind_run {A B} (m : M A) (k : A -> M B) s :
  (m ≫= k) s
  = match m s with
    | (Ret a, s') => k a s'
    | (Raise e, s') => (Raise e, s')
    end.
Proof. reflexivity. Qed.

(** X15. For a device name the inventory does not have, [configure] says
    so and stops: no question is asked and no session is opened. *)
Theorem configure_unknown_device inventory device action interface s inv w1 :
  csv_DictReader inventory (world s) = (Ret inv, w1) ->
  get_device_data inv device = Ret None ->
  configure inventory device action interface s
  = (Ret tt,
     State w1 (log s ++ [ReadInventory inventory;
                         Echo (py "Device " ++ device
                               ++ py " not found in inventory.")])).
Proof.
  intros Hread Hget.
  unfold configure, read_inventory, echo, call, mbind, M_bind.
  rewrite Hread. cbn [world log]. rewrite Hget. cbn [world log].
  by rewrite <- app_assoc.
Qed.

(** X16. For a device of the inventory and any action other than
    ["create"], [configure] asks nothing and deploys exactly the commands
    [render_interface_config] renders for that action and interface. *)
Theorem configure_delete_deploys_rendered
    inventory device action interface s inv w1 dev_data conn_info :
  csv_DictReader inventory (world s) = (Ret inv, w1) ->
  get_device_data inv device = Ret (Some dev_data) ->
  (get_conn_info dev_data s).1 = Ret conn_info ->
  action <> py "create" ->
  configure inventory device action interface s
  = configure_deploys device conn_info
      (render_interface_config action interface [] [])
      (State w1 (log s ++ [ReadInventory inventory])).
Proof.
  intros Hread Hget Hinfo Hact.
  unfold configure, read_inventory, call.
  unfold mbind at 1, M_bind at 1. rewrite Hread. cbn [world log].
  unfold mbind at 1, M_bind at 1. rewrite Hget.
  unfold mbind at 1, M_bind at 1.
  rewrite get_conn_info_run in Hinfo |- *. cbn [fst] in Hinfo. rewrite Hinfo.
  destruct (decide (action = py "create")) as [|_]; [done|].
  rewrite bind_run. unfold mret at 1, M_ret at 1. cbn beta iota.
  rewrite (configure_delete_commands action interface [] [] Hact).
  unfold configure_deploys, try_except, echo, call.
  repeat first [rewrite bind_run | progress cbn [world log]].
  rewrite <- !app_assoc. cbn [app].
  destruct (send_config conn_info _ _) as [[output|e] s3]; [done|].
  by destruct (is_Exception e).
Qed.

(** X17. For a device of the inventory and the action ["create"],
    [configure] asks for the address and then for the mask, and deploys
    exactly the commands [render_interface_config] renders for the
    interface and the two answers. *)
Theorem configure_create_deploys_rendered
    inventory device interface s inv w1 dev_data conn_info ip w2 subnet w3 :
  csv_DictReader inventory (world s) = (Ret inv, w1) ->
  get_device_data inv device = Ret (Some dev_data) ->
  (get_conn_info dev_data s).1 = Ret conn_info ->
  click_prompt (py "IP address") None w1 = (Ret ip, w2) ->
  click_prompt (py "Subnet mask") (Some (py "255.255.255.0")) w2
  = (Ret subnet, w3) ->
  configure inventory device (py "create") interface s
  = configure_deploys device conn_info
      (render_interface_config (py "create") interface ip subnet)
      (State w3 (log s ++ [ReadInventory inventory;
                           Input (py "IP address");
                           Input (py "Subnet mask")])).
Proof.
  intros Hread Hget Hinfo Hip Hmask.
  unfold configure, read_inventory, call.
  unfold mbind at 1, M_bind at 1. rewrite Hread. cbn [world log].
  unfold mbind at 1, M_bind at 1. rewrite Hget.
  unfold mbind at 1, M_bind at 1.
  rewrite get_conn_info_run in Hinfo |- *. cbn [fst] in Hinfo. rewrite Hinfo.
  destruct (decide (py "create" = py "create")) as [_|]; [|done].
  unfold ask, call.
  repeat first [rewrite bind_run | progress cbn [world log]
               | rewrite Hip | rewrite Hmask].
  unfold mret at 1, M_ret at 1. cbn beta iota.
  rewrite (configure_create_commands interface ip subnet).
  unfold configure_deploys, try_except, echo, call.
  repeat first [rewrite bind_run | progress cbn [world log]].
  rewrite <- !app_assoc. cbn [app].
  destruct (send_config conn_info _ _) as [[output|e] s3]; [done|].
  by destruct (is_Exception e).
Qed.

End CommandLineRuns.

(** ** The inventory *)

Lemma get_device_data_other name pre rest :
  other_names name pre ->
  get_device_data (pre ++ rest) name = get_device_data rest name.
Proof.
  induction 1 as [|d pre (m & Hm & Hne) _ IH]; [done|].
  simpl. rewrite Hm. by destruct (decide (m = name)).
Qed.

Lemma get_device_data_absent name l :
  other_names name l -> get_device_data l name = Ret None.
Proof.
  intros Hl. rewrite <- (app_nil_r l). by rewrite get_device_data_other.
Qed.

(** X18. [get_device_data] returns the first record named [device_name],
    and [None] exactly when every record has another name. *)
Theorem get_device_data_first_match inventory device_name :
  (forall d,
     get_device_data inventory device_name = Ret (Some d) <->
     exists pre post,
       inventory = pre ++ d :: post
       /\ other_names device_name pre
       /\ d !! py "Name" = Some device_name)
  /\ (get_device_data inventory device_name = Ret None <->
      other_names device_name inventory).
Proof.
  induction inventory as [|x inv [IHsome IHnone]].
  - split.
    + intros d. split; [done|]. intros (pre & post & Heq & _).
      by destruct pre.
    + split; [by constructor|done].
  - simpl. destruct (x !! py "Name") as [m|] eqn:Hm.
    + destruct (decide (m = device_name)) as [->|Hne].
      * split.
        -- intros d. split.
           ++ intros [= <-]. exists [], inv. repeat split; [by constructor|done].
           ++ intros (pre & post & Heq & Hpre & Hd). destruct pre as [|y pre].
              ** by injection Heq as ->.
              ** injection Heq as -> ->.
                 apply Forall_cons in Hpre as [(m' & Hm' & Hne') _].
                 congruence.
        -- split; [done|]. intros [(m' & Hm' & Hne') _]%Forall_cons.
           congruence.
      * split.
        -- intros d. rewrite IHsome. split.
           ++ intros (pre & post & -> & Hpre & Hd).
              exists (x :: pre), post. repeat split; try done.
              constructor; [eauto|done].
           ++ intros (pre & post & Heq & Hpre & Hd). destruct pre as [|y pre].
              ** injection Heq as -> ->. congruence.
              ** injection Heq as -> ->.
                 apply Forall_cons in Hpre as [_ Hpre]. eauto.
        -- rewrite IHnone. split.
           ++ intros Hinv. constructor; [eauto|done].
           ++ by intros [_ ?]%Forall_cons.
    + split.
      * intros d. split; [done|].
        intros (pre & post & Heq & Hpre & Hd). destruct pre as [|y pre].
        -- injection Heq as -> ->. congruence.
        -- injection Heq as -> ->.
           apply Forall_cons in Hpre as [(m' & Hm' & _) _]. congruence.
      * split; [done|]. intros [(m' & Hm' & _) _]%Forall_cons. congruence.
Qed.

(** X19. After [add_device], looking up the new record's name finds the
    new record when the name was free, and still finds the old record (or
    still raises) when it was not: the append does not check for
    duplicates, and the first record wins. *)
Theorem add_device_then_lookup inventory new_device name :
  new_device !! py "Name" = Some name ->
  get_device_data (add_device inventory new_device) name
  = match get_device_data inventory name with
    | Ret None => Ret (Some new_device)
    | found => found
    end
  /\ (forall other,
        other <> name ->
        get_device_data (add_device inventory new_device) other
        = get_device_data inventory other).
Proof.
  intros Hname. unfold add_device. split.
  - induction inventory as [|x inv IH]; simpl.
    + rewrite Hname. by destruct (decide (name = name)).
    + destruct (x !! py "Name") as [m|]; [|done].
      by destruct (decide (m = name)).
  - intros other Hne. induction inventory as [|x inv IH]; simpl.
    + rewrite Hname. by destruct (decide (name = other)).
    + destruct (x !! py "Name") as [m|]; [|done].
      by destruct (decide (m = other)).
Qed.

Lemma list_remove_first d pre post :
  Forall (fun x => x <> d) pre ->
  list_remove d (pre ++ d :: post) = Ret (pre ++ post).
Proof.
  induction 1 as [|x pre Hx _ IH]; simpl.
  - by destruct (decide (d = d)).
  - destruct (decide (x = d)); [done|]. by rewrite IH.
Qed.

Lemma list_remove_sublist d l l' :
  list_remove d l = Ret l' -> sublist l' l /\ length l = S (length l').
Proof.
  revert l'. induction l as [|x l IH]; intros l'; simpl; [done|].
  destruct (decide (x = d)).
  - intros [= <-]. split; [by apply sublist_cons|done].
  - destruct (list_remove d l) as [r|e]; [|done]. intros [= <-].
    destruct (IH r eq_refl) as [Hs Hl]. split; [by apply sublist_skip|].
    simpl. by rewrite Hl.
Qed.

Lemma other_names_differ name d l :
  d !! py "Name" = Some name -> other_names name l ->
  Forall (fun x => x <> d) l.
Proof.
  intros Hd Hl. eapply Forall_impl; [exact Hl|].
  intros x (m & Hm & Hne) ->. congruence.
Qed.

Lemma remove_device_from_S fuel inventory device_name index :
  remove_device_from (S fuel) inventory device_name index =
  match inventory !! index with
  | None => Some (Ret tt, inventory)
  | Some device =>
      match device !! py "Name" with
      | None => Some (Raise (KeyError (py "Name")), inventory)
      | Some name =>
          if decide (name = device_name)
          then match list_remove device inventory with
               | Ret inventory' =>
                   remove_device_from fuel inventory' device_name (S index)
               | Raise e => Some (Raise e, inventory)
               end
          else remove_device_from fuel inventory device_name (S index)
      end
  end.
Proof. reflexivity. Qed.

(** The loop passes over records with another name without touching the
    list. *)
Lemma remove_device_scan name mid :
  other_names name mid ->
  forall pre rest fuel,
    remove_device_from (length mid + fuel) (pre ++ mid ++ rest) name (length pre)
    = remove_device_from fuel (pre ++ mid ++ rest) name (length (pre ++ mid)).
Proof.
  induction 1 as [|x mid (m & Hm & Hne) _ IH]; intros pre rest fuel.
  - by rewrite app_nil_r.
  - change (length (x :: mid) + fuel)%nat with (S (length mid + fuel)).
    rewrite remove_device_from_S.
    change (pre ++ (x :: mid) ++ rest) with (pre ++ x :: (mid ++ rest)).
    rewrite list_lookup_middle by done. rewrite Hm.
    destruct (decide (m = name)); [done|].
    specialize (IH (pre ++ [x]) rest fuel).
    rewrite <- !app_assoc in IH. cbn [app] in IH.
    rewrite !length_app in IH. cbn [length] in IH.
    rewrite length_app. cbn [length].
    by replace (length pre + 1)%nat with (S (length pre)) in IH by lia.
Qed.

(** The loop never runs out of turns, and all it does to the list is to
    remove records. *)
Lemma remove_device_from_ends name fuel :
  forall inventory index,
    (1 + (length inventory - index) <= fuel)%nat ->
    exists r l,
      remove_device_from fuel inventory name index = Some (r, l)
      /\ sublist l inventory.
Proof.
  induction fuel as [|fuel IH]; intros inventory index Hfuel; [lia|].
  rewrite remove_device_from_S.
  destruct (inventory !! index) as [d|] eqn:Hd; [|by eauto].
  apply lookup_lt_Some in Hd.
  destruct (d !! py "Name") as [m|]; [|by eauto].
  destruct (decide (m = name)) as [_|_].
  - destruct (list_remove d inventory) as [inv'|err] eqn:Hrem; [|by eauto].
    apply list_remove_sublist in Hrem as [Hsub Hlen].
    destruct (IH inv' (S index)) as (r & l & Hrun & Hl); [lia|].
    exists r, l. split; [done|]. by etrans.
  - destruct (IH inventory (S index)) as (r & l & Hrun & Hl); [lia|]. eauto.
Qed.

(** X20. [remove_device] always comes to an end, and what it leaves is the
    inventory with some records taken out, the others in their order. *)
Theorem remove_device_ends inventory device_name :
  exists r l,
    remove_device inventory device_name = Some (r, l) /\ sublist l inventory.
Proof. apply remove_device_from_ends. lia. Qed.

Lemma remove_device_next device_name pre d next post :
  other_names device_name pre ->
  d !! py "Name" = Some device_name ->
  other_names device_name post ->
  remove_device (pre ++ d :: next :: post) device_name
  = Some (Ret tt, pre ++ next :: post).
Proof.
  intros Hpre Hd Hpost. unfold remove_device.
  rewrite length_app. cbn [length].
  replace (S (length pre + S (S (length post))))
    with (length pre + S (length post + 2))%nat by lia.
  pose proof (remove_device_scan _ _ Hpre [] (d :: next :: post)) as Hscan.
  cbn [app length] in Hscan. rewrite Hscan. clear Hscan.
  rewrite remove_device_from_S, list_lookup_middle by done. rewrite Hd.
  destruct (decide (device_name = device_name)) as [_|]; [|done].
  rewrite list_remove_first by (by eapply other_names_differ).
  pose proof (remove_device_scan _ _ Hpost (pre ++ [next]) [] 2) as Hscan.
  rewrite app_nil_r, <- !app_assoc in Hscan. cbn [app] in Hscan.
  rewrite length_app in Hscan. cbn [length] in Hscan.
  replace (length pre + 1)%nat with (S (length pre)) in Hscan by lia.
  rewrite Hscan, remove_device_from_S.
  rewrite lookup_ge_None_2; [done|]. lia.
Qed.

(** X21. [remove_device] removes the first record named [device_name] and
    then passes over the record that follows it without looking at it:
    that record stays, whatever its name. *)
Theorem remove_device_skips_next inventory device_name pre d next post :
  inventory = pre ++ d :: next :: post ->
  other_names device_name pre ->
  d !! py "Name" = Some device_name ->
  other_names device_name post ->
  remove_device inventory device_name = Some (Ret tt, pre ++ next :: post).
Proof. intros ->. apply remove_device_next. Qed.

(** X22. When one record only is named [device_name], [remove_device]
    removes it and leaves the others in their order; the name is then no
    longer found. *)
Theorem remove_device_unique inventory device_name pre d post :
  inventory = pre ++ d :: post ->
  other_names device_name pre ->
  d !! py "Name" = Some device_name ->
  other_names device_name post ->
  remove_device inventory device_name = Some (Ret tt, pre ++ post)
  /\ get_device_data (pre ++ post) device_name = Ret None.
Proof.
  intros -> Hpre Hd Hpost. split.
  - destruct post as [|next post].
    + unfold remove_device. rewrite length_app. cbn [length].
      replace (S (length pre + 1)) with (length pre + 2)%nat by lia.
      pose proof (remove_device_scan _ _ Hpre [] [d] 2) as Hscan.
      cbn [app length] in Hscan.
      change (length pre + 2)%nat with (length pre + S 1)%nat.
      rewrite Hscan. clear Hscan.
      rewrite remove_device_from_S, list_lookup_middle by done.
      rewrite Hd. destruct (decide (device_name = device_name)); [|done].
      rewrite list_remove_first by (by eapply other_names_differ).
      rewrite remove_device_from_S.
      rewrite lookup_ge_None_2; [done|]. rewrite app_nil_r. lia.
    + apply Forall_cons in Hpost as [_ Hpost].
      by apply remove_device_next.
  - apply get_device_data_absent. by apply Forall_app.
Qed.

(** ** The driver: what else [main] does *)

Section Runs.
Context `{Platform}.

(** X23. When the inventory cannot be read, [main] reports the error and
    stops: it asks nothing and sends no request. *)
Theorem main_inventory_failure s e w :
  csv_DictReader (py "inventory.csv") (world s) = (Raise e, w) ->
  is_Exception e = true ->
  main s
  = (Ret tt,
     State w (log s ++ [Print (py "Starting AI-powered network automation...");
                        ReadInventory (py "inventory.csv");
                        Print (py "Error loading inventory: " ++ exc_str e)])).
Proof.
  intros Hread He.
  unfold main, read_inventory, try_except, print, call.
  rewrite !bind_run. cbn [world log]. rewrite Hread. rewrite He.
  rewrite !bind_run. cbn [world log]. unfold mret, M_ret.
  by rewrite <- !app_assoc.
Qed.

(** X24. When the requirements typed are empty or blank, [main] stops
    after saying so: whatever the inventory holds, no request is sent. *)
Theorem main_blank_requirements s inventory w1 requirements w2 :
  csv_DictReader (py "inventory.csv") (world s) = (Ret inventory, w1) ->
  builtin_input (py "Requirements: ") w1 = (Ret requirements, w2) ->
  blank requirements ->
  (main s).1 = Ret tt
  /\ world (main s).2 = w2
  /\ count is_post (log (main s).2) = count is_post (log s)
  /\ last (log (main s).2)
     = Some (Print (py "No requirements provided. Exiting.")).
Proof.
  intros Hread Hinput Hblank.
  unfold main, read_inventory, try_except, print, input, call.
  unfold mbind, M_bind, mret, M_ret. cbn [world log].
  rewrite Hread. cbn [world log]. rewrite Hinput.
  rewrite strip_blank by done. cbn [nonempty negb world log fst snd].
  repeat split.
  - rewrite !count_snoc. cbn [is_post]. lia.
  - by rewrite last_snoc.
Qed.

(** X25. As the driver stands, no run of [main] opens a session, sends a
    command or closes a session. *)
Theorem main_opens_no_session :
  never is_open main /\ never is_apply main /\ never is_disconnect main.
Proof.
  repeat split;
    unfold main, main_loop_body, generate_device_config, query_ollama;
    never_tac.
Qed.

(** One generation is one request, however it ends. *)
Lemma generate_device_config_posts_once device_info requirements s :
  count is_post (log (generate_device_config device_info requirements s).2)
  = S (count is_post (log s)).
Proof.
  rewrite generate_device_config_run.
  destruct (requests_post _ _ _ _) as [r w]. cbv zeta.
  destruct (answer r) as [[]|e]; try (destruct (startswith _ _));
    cbn [log snd]; rewrite ?count_snoc, !count_app; unfold count; simpl; lia.
Qed.

Lemma count_after_print p n text {A} (k : M A) :
  p (Print text) = false ->
  (forall s, count p (log (k s).2) = (n + count p (log s))%nat) ->
  forall s, count p (log ((print text;; k) s).2) = (n + count p (log s))%nat.
Proof.
  intros Hp Hk s. unfold print, call. rewrite bind_run. cbn [world log].
  rewrite Hk. cbn [log]. rewrite count_snoc, Hp. lia.
Qed.

Lemma count_bind_never p n {A B} (m : M A) (k : A -> M B) :
  (forall s, count p (log (m s).2) = (n + count p (log s))%nat) ->
  (forall a, never p (k a)) ->
  forall s, count p (log ((m ≫= k) s).2) = (n + count p (log s))%nat.
Proof.
  intros Hm Hk s. rewrite bind_run. specialize (Hm s).
  destruct (m s) as [[a|e] s1]; cbn [snd] in *; [|done].
  by rewrite Hk.
Qed.

Lemma main_loop_body_posts_once requirements device_data s :
  count is_post (log (main_loop_body requirements device_data s).2)
  = (1 + count is_post (log s))%nat.
Proof.
  revert s. unfold main_loop_body. cbv zeta.
  do 3 (apply count_after_print; [done|]).
  apply count_bind_never.
  - intros s. by rewrite generate_device_config_posts_once.
  - intros g. never_tac.
Qed.

(** X26. The loop sends exactly one request for every device it gets to:
    a run that comes to its end has sent as many requests as the inventory
    has records, and no run sends more. *)
Theorem one_request_per_device requirements inventory s :
  (count is_post (log (for_each (main_loop_body requirements) inventory s).2)
   <= count is_post (log s) + length inventory)%nat
  /\ ((for_each (main_loop_body requirements) inventory s).1 = Ret tt ->
      count is_post (log (for_each (main_loop_body requirements) inventory s).2)
      = (count is_post (log s) + length inventory)%nat).
Proof.
  revert s. induction inventory as [|d inv IH]; intros s.
  - simpl. split; [lia|]. intros _. lia.
  - cbn [for_each]. rewrite bind_run.
    pose proof (main_loop_body_posts_once requirements d s) as Hbody.
    destruct (main_loop_body requirements d s) as [[[]|e] s1]; cbn [snd] in *.
    + destruct (IH s1) as [Hle Heq]. cbn [length]. split; [lia|].
      intros Hret. rewrite Heq by done. lia.
    + cbn [length fst snd]. split; [lia|done].
Qed.

(** What the body logs before it has the outcome of a generation. *)
Lemma main_loop_body_run requirements device_data s :
  main_loop_body requirements device_data s
  = let device_name := get_default device_data (py "Name") (py "Unknown") in
    let s0 :=
      State (world s)
        (log s ++ [Print (LF :: replicate 50 61);
                   Print (py "Processing device: " ++ device_name);
                   Print (replicate 50 61)]) in
    match generate_device_config device_data requirements s0 with
    | (Raise e, s1) => (Raise e, s1)
    | (Ret generated_config, s1) =>
        ((match generated_config with
          | Some ((_ :: _) as generated_config) =>
              print (LF :: py "Generated configuration for " ++ device_name
                     ++ py ":");;
              print (replicate 40 45);;
              print generated_config;;
              print (replicate 40 45);;
              match process_generated_config generated_config with
              | _ :: _ =>
                  print (LF :: py "Processed "
                         ++ py (pretty (length
                                  (process_generated_config generated_config)))
                         ++ py " configuration commands");;
                  apply ← input (LF :: py "Apply configuration to "
                                 ++ device_name ++ py "? (y/N): ");
                  if decide (lower apply = py "y")
                  then print (py "Configuration deployment will be implemented in Task 3")
                  else print (py "Configuration saved but not applied")
              | [] => print (py "No valid configuration commands generated")
              end
          | _ => mret tt
          end);;
         print (LF :: py "Completed processing for " ++ device_name)) s1
    end.
Proof.
  unfold main_loop_body. cbv zeta.
  unfold print, input, call, mbind, M_bind. cbn [world log].
  replace (((log s ++ [Print (LF :: replicate 50 61)]) ++
            [Print (py "Processing device: "
                    ++ get_default device_data (py "Name") (py "Unknown"))]) ++
           [Print (replicate 50 61)])
    with (log s ++ [Print (LF :: replicate 50 61);
                    Print (py "Processing device: "
                           ++ get_default device_data (py "Name") (py "Unknown"));
                    Print (replicate 50 61)])
    by (by rewrite <- !app_assoc).
  reflexivity.
Qed.

(** X27. An answer of the backend without a ["response"] field is not a
    failure: the fallback text ["No response generated"] does not open with
    ["Error"], so it is taken as the generated configuration, it survives
    the sanitizer as one command, and the operator is asked whether to
    apply it. *)
Theorem missing_response_field_is_offered
    requirements device_data s r items w :
  requests_post ollama_url (generation_payload device_data requirements) 60
    (world s) = (Ret r, w) ->
  raise_for_status r = Ret tt ->
  json r = Ret (PDict items) ->
  dict_get (py "response") items = None ->
  (generate_device_config device_data requirements s).1
  = Ret (Some (py "No response generated"))
  /\ process_generated_config (py "No response generated")
     = [py "No response generated"]
  /\ count is_input (log (main_loop_body requirements device_data s).2)
     = S (count is_input (log s)).
Proof.
  intros Hpost Hstatus Hjson Hget.
  assert (answer (Ret r) = Ret (PStr (py "No response generated"))) as Hans.
  { unfold answer, decode. by rewrite Hstatus, Hjson, Hget. }
  assert (process_generated_config (py "No response generated")
          = [py "No response generated"]) as Hproc by by vm_compute.
  split; [|split; [exact Hproc|]].
  - rewrite generate_device_config_run, Hpost. cbv zeta. rewrite Hans.
    by replace (startswith (py "Error") (py "No response generated"))
      with false by by vm_compute.
  - rewrite main_loop_body_run. cbv zeta.
    rewrite generate_device_config_run. cbn [world log]. rewrite Hpost.
    cbv zeta. rewrite Hans.
    replace (startswith (py "Error") (py "No response generated"))
      with false by by vm_compute.
    change (py "No response generated") with (78 :: py "o response generated").
    cbv iota beta.
    change (78 :: py "o response generated") with (py "No response generated").
    rewrite Hproc. cbv iota beta.
    unfold print, input, call.
    repeat first [rewrite bind_run | progress cbn [world log]].
    destruct (builtin_input _ w) as [[reply|e] w1]; cbn [world log snd].
    + destruct (decide _);
        repeat first [rewrite bind_run | progress cbn [world log snd]];
        rewrite !count_snoc, !count_app; unfold count; simpl; lia.
    + rewrite !count_snoc, !count_app; unfold count; simpl; lia.
Qed.

(** X28. A ["response"] field that is not text stops the whole run: the
    [AttributeError] of [startswith] is raised outside every [try], so the
    loop ends at that device, right after its request, and no later record
    is processed. *)
Theorem non_text_response_aborts_run
    requirements device_data later s r items v w :
  requests_post ollama_url (generation_payload device_data requirements) 60
    (world s) = (Ret r, w) ->
  raise_for_status r = Ret tt ->
  json r = Ret (PDict items) ->
  dict_get (py "response") items = Some v ->
  (forall text, v <> PStr text) ->
  for_each (main_loop_body requirements) (device_data :: later) s
  = (Raise (AttributeError v (py "startswith")),
     State w
       (log s ++
        [ Print (LF :: replicate 50 61);
          Print (py "Processing device: "
                 ++ get_default device_data (py "Name") (py "Unknown"));
          Print (replicate 50 61);
          Print (py "Generating configuration for "
                 ++ get_default device_data (py "Name") (py "device")
                 ++ py "...");
          Print (py "This may take a few moments...");
          Post ollama_url (generation_payload device_data requirements) 60 ])).
Proof.
  intros Hpost Hstatus Hjson Hget Hv.
  assert (answer (Ret r) = Ret v) as Hans.
  { unfold answer, decode. by rewrite Hstatus, Hjson, Hget. }
  cbn [for_each]. rewrite bind_run, main_loop_body_run. cbv zeta.
  rewrite generate_device_config_run. cbn [world log]. rewrite Hpost.
  cbv zeta. rewrite Hans.
  destruct v as [|b|z|f|text|l|items0]; try (by destruct (Hv text));
    by rewrite <- !app_assoc.
Qed.

End Runs.

(** ** Concrete runs of the further properties *)

Lemma sanitize_clean_commands_witness :
  process_generated_config
    (join [LF] [py "interface Gi0/1"; py "ip address 10.0.0.1 255.255.255.0";
                py "no shutdown"])
  = [py "interface Gi0/1"; py "ip address 10.0.0.1 255.255.255.0";
     py "no shutdown"].
Proof.
  apply sanitize_clean_commands.
  - repeat constructor; by vm_compute.
  - repeat constructor; by vm_compute.
  - repeat constructor; apply (bool_decide_unpack _); by vm_compute.
Defined.

Lemma sanitize_prompt_prefix_witness :
  process_generated_config
    (py "  " ++ prefix_config ++ py " ip address 10.0.0.1 255.255.255.0 ")
  = if nonempty (strip (py " ip address 10.0.0.1 255.255.255.0 "))
    then [strip (py " ip address 10.0.0.1 255.255.255.0 ")] else [].
Proof.
  apply sanitize_prompt_prefix.
  - apply (bool_decide_unpack _); by vm_compute.
  - repeat constructor.
  - apply (bool_decide_unpack _); by vm_compute.
  - apply (bool_decide_unpack _); by vm_compute.
  - by vm_compute.
Defined.

Lemma enable_failure_leaves_session_open_witness :
  @send_config (scripted lab_no_enable) R1_conn_info [py "interface Gi0/1"]
    (@State (scripted lab_no_enable) [] [])
  = (Ret (py "Connection failed; configuration not sent."),
     @State (scripted lab_no_enable) []
       [ConnectHandler R1_conn_info; Enable 7;
        Echo (py "Error connecting to device "
              ++ format_get (R1_conn_info !! py "host") ++ py ": "
              ++ exc_str (Exc true (py "enable failed")))]).
Proof.
  exact (proj1 (@enable_failure_leaves_session_open (scripted lab_no_enable)
                  R1_conn_info [py "interface Gi0/1"]
                  (@State (scripted lab_no_enable) [] []) 7 []
                  (Exc true (py "enable failed")) []
                  eq_refl eq_refl eq_refl)).
Defined.

Lemma send_config_applies_then_closes_witness :
  log (@send_config (scripted lab) R1_conn_info [py "interface Gi0/1"]
         (@State (scripted lab) [] [])).2
  = [ConnectHandler R1_conn_info; Enable 7]
    ++ [SendConfigSet 7 [py "interface Gi0/1"]; Disconnect 7].
Proof.
  apply (@send_config_applies_then_closes (scripted lab) R1_conn_info
           [py "interface Gi0/1"] (@State (scripted lab) [] []) 7
           (@State (scripted lab) [] [ConnectHandler R1_conn_info; Enable 7])).
  vm_compute. reflexivity.
Defined.

Lemma send_config_result_witness :
  (@send_config (scripted lab_stuck_session) R1_conn_info
     [py "interface Gi0/1"] (@State (scripted lab_stuck_session) [] [])).1
  = Raise (Exc true (py "socket closed")).
Proof.
  apply (@send_config_result (scripted lab_stuck_session) R1_conn_info
           [py "interface Gi0/1"] (@State (scripted lab_stuck_session) [] []) 7
           (@State (scripted lab_stuck_session) []
              [ConnectHandler R1_conn_info; Enable 7])
           (Ret (py "R1(config)#")) []
           (Raise (Exc true (py "socket closed"))) []).
  - vm_compute. reflexivity.
  - reflexivity.
  - reflexivity.
Defined.

Lemma missing_field_raises_before_connecting_witness :
  exists missing,
    missing ∈ [py "Management IP"; py "Username"; py "Password"]
    /\ delete (py "Password") R1_record !! missing = None
    /\ @establish_connection reachable (delete (py "Password") R1_record)
         (@State reachable [] [])
       = (Raise (KeyError missing), @State reachable [] [])
    /\ @deploy_configuration reachable (delete (py "Password") R1_record)
         [py "interface Gi0/1"] (@State reachable [] [])
       = (Raise (KeyError missing), @State reachable [] []).
Proof.
  apply (@missing_field_raises_before_connecting reachable
           (delete (py "Password") R1_record) [py "interface Gi0/1"]
           (@State reachable [] []) (py "Password")).
  - apply (bool_decide_unpack _); by vm_compute.
  - by vm_compute.
Defined.

Lemma deploy_configuration_result_witness :
  (@deploy_configuration refusing R1_record [py "interface Gi0/1"]
     (@State refusing [] [])).1
  = match (@netmiko_send_config_set refusing 7 [py "interface Gi0/1"] []).1 with
    | Ret _ => Ret true
    | Raise e => if is_Exception e then Ret false else Raise e
    end
  /\ List.filter is_apply
       (log (@deploy_configuration refusing R1_record [py "interface Gi0/1"]
               (@State refusing [] [])).2)
     = List.filter is_apply [ConnectHandler R1_conn_info; Enable 7]
       ++ [SendConfigSet 7 [py "interface Gi0/1"]].
Proof.
  apply (@deploy_configuration_result refusing R1_record
           [py "interface Gi0/1"] (@State refusing [] []) 7
           (@State refusing [] [ConnectHandler R1_conn_info; Enable 7])).
  vm_compute. reflexivity.
Defined.

Lemma configure_unknown_device_witness :
  @configure (scripted lab) (terminal (scripted lab) (py "10.0.0.2") (Ret []))
    (py "inventory.csv") (py "R9") (py "create") (py "Gi0/1")
    (@State (scripted lab) [] [])
  = (Ret tt,
     @State (scripted lab) []
       ([] ++ [ReadInventory (py "inventory.csv");
               Echo (py "Device " ++ py "R9"
                     ++ py " not found in inventory.")])).
Proof.
  apply (@configure_unknown_device (scripted lab)
           (terminal (scripted lab) (py "10.0.0.2") (Ret []))
           (py "inventory.csv") (py "R9") (py "create") (py "Gi0/1")
           (@State (scripted lab) [] []) [R1_record] []).
  - reflexivity.
  - by vm_compute.
Defined.

Lemma configure_delete_deploys_rendered_witness :
  @configure (scripted lab) (terminal (scripted lab) (py "10.0.0.2") (Ret []))
    (py "inventory.csv") (py "R1") (py "delete") (py "Gi0/1")
    (@State (scripted lab) [] [])
  = @configure_deploys (scripted lab) (py "R1") R1_conn_info
      (render_interface_config (py "delete") (py "Gi0/1") [] [])
      (@State (scripted lab) [] ([] ++ [ReadInventory (py "inventory.csv")])).
Proof.
  apply (@configure_delete_deploys_rendered (scripted lab)
           (terminal (scripted lab) (py "10.0.0.2") (Ret []))
           (py "inventory.csv") (py "R1") (py "delete") (py "Gi0/1")
           (@State (scripted lab) [] []) [R1_record] [] R1_record R1_conn_info).
  - reflexivity.
  - by vm_compute.
  - by vm_compute.
  - by vm_compute.
Defined.

Lemma configure_create_deploys_rendered_witness :
  @configure (scripted lab) (terminal (scripted lab) (py "10.0.0.2") (Ret []))
    (py "inventory.csv") (py "R1") (py "create") (py "Gi0/1")
    (@State (scripted lab) [] [])
  = @configure_deploys (scripted lab) (py "R1") R1_conn_info
      (render_interface_config (py "create") (py "Gi0/1") (py "10.0.0.2")
         (py "10.0.0.2"))
      (@State (scripted lab) []
         ([] ++ [ReadInventory (py "inventory.csv");
                 Input (py "IP address"); Input (py "Subnet mask")])).
Proof.
  apply (@configure_create_deploys_rendered (scripted lab)
           (terminal (scripted lab) (py "10.0.0.2") (Ret []))
           (py "inventory.csv") (py "R1") (py "Gi0/1")
           (@State (scripted lab) [] []) [R1_record] [] R1_record R1_conn_info
           (py "10.0.0.2") [] (py "10.0.0.2") []).
  - reflexivity.
  - by vm_compute.
  - by vm_compute.
  - reflexivity.
  - reflexivity.
Defined.

Lemma add_device_then_lookup_witness :
  get_device_data (add_device [named (py "R1")] (named (py "R2"))) (py "R2")
  = match get_device_data [named (py "R1")] (py "R2") with
    | Ret None => Ret (Some (named (py "R2")))
    | found => found
    end.
Proof.
  apply (proj1 (add_device_then_lookup [named (py "R1")] (named (py "R2"))
                  (py "R2") ltac:(by vm_compute))).
Defined.

Lemma remove_device_skips_next_witness :
  remove_device
    [named (py "R1"); named (py "R2"); named (py "R2"); named (py "R3")]
    (py "R2")
  = Some (Ret tt, [named (py "R1")] ++ named (py "R2") :: [named (py "R3")]).
Proof.
  apply (remove_device_skips_next _ (py "R2") [named (py "R1")]
           (named (py "R2")) (named (py "R2")) [named (py "R3")]).
  - reflexivity.
  - repeat constructor. exists (py "R1"). split; by vm_compute.
  - by vm_compute.
  - repeat constructor. exists (py "R3"). split; by vm_compute.
Defined.

Lemma remove_device_unique_witness :
  remove_device [named (py "R1"); named (py "R2"); named (py "R3")] (py "R2")
  = Some (Ret tt, [named (py "R1")] ++ [named (py "R3")])
  /\ get_device_data ([named (py "R1")] ++ [named (py "R3")]) (py "R2")
     = Ret None.
Proof.
  apply (remove_device_unique _ (py "R2") [named (py "R1")]
           (named (py "R2")) [named (py "R3")]).
  - reflexivity.
  - repeat constructor. exists (py "R1"). split; by vm_compute.
  - by vm_compute.
  - repeat constructor. exists (py "R3"). split; by vm_compute.
Defined.

Lemma main_inventory_failure_witness :
  @main (scripted lab_unreadable) (@State (scripted lab_unreadable) [] [])
  = (Ret tt,
     @State (scripted lab_unreadable) []
       ([] ++ [Print (py "Starting AI-powered network automation...");
               ReadInventory (py "inventory.csv");
               Print (py "Error loading inventory: "
                      ++ exc_str (Exc true (py "No such file or directory")))])).
Proof.
  apply (@main_inventory_failure (scripted lab_unreadable)
           (@State (scripted lab_unreadable) [] [])
           (Exc true (py "No such file or directory")) []).
  - reflexivity.
  - reflexivity.
Defined.

Lemma main_blank_requirements_witness :
  count is_post
    (log (@main (scripted lab_silent)
            (@State (scripted lab_silent) [generated (py "shutdown")] [])).2)
  = count is_post []
  /\ world (@main (scripted lab_silent)
              (@State (scripted lab_silent) [generated (py "shutdown")] [])).2
     = [generated (py "shutdown")].
Proof.
  pose proof (@main_blank_requirements (scripted lab_silent)
                (@State (scripted lab_silent) [generated (py "shutdown")] [])
                [R1_record] [generated (py "shutdown")] (py "   ")
                [generated (py "shutdown")] eq_refl eq_refl
                ltac:(repeat constructor)) as (_ & Hworld & Hposts & _).
  split; [exact Hposts|exact Hworld].
Defined.

Lemma missing_response_field_is_offered_witness :
  (@generate_device_config (scripted lab) R1_record (py "enable the uplink")
     (@State (scripted lab) [answered (PDict [])] [])).1
  = Ret (Some (py "No response generated"))
  /\ count is_input
       (log (@main_loop_body (scripted lab) (py "enable the uplink") R1_record
               (@State (scripted lab) [answered (PDict [])] [])).2)
     = 1%nat.
Proof.
  pose proof (@missing_response_field_is_offered (scripted lab)
                (py "enable the uplink") R1_record
                (@State (scripted lab) [answered (PDict [])] [])
                (Response (Ret tt) (Ret (PDict []))) [] []
                eq_refl eq_refl eq_refl eq_refl) as (Hgen & _ & Hasked).
  split; [exact Hgen|exact Hasked].
Defined.

Lemma non_text_response_aborts_run_witness :
  (for_each (@main_loop_body (scripted lab) (py "enable the uplink"))
     [named (py "R1"); named (py "R2")]
     (@State (scripted lab)
        [answered (PDict [(py "response", PInt 1)]); generated (py "shutdown")]
        [])).1
  = Raise (AttributeError (PInt 1) (py "startswith")).
Proof.
  rewrite (@non_text_response_aborts_run (scripted lab)
             (py "enable the uplink") (named (py "R1")) [named (py "R2")]
             (@State (scripted lab)
                [answered (PDict [(py "response", PInt 1)]);
                 generated (py "shutdown")] [])
             (Response (Ret tt) (Ret (PDict [(py "response", PInt 1)])))
             [(py "response", PInt 1)] (PInt 1) [generated (py "shutdown")]
             eq_refl eq_refl eq_refl ltac:(by vm_compute)
             ltac:(intros text; discriminate)).
  reflexivity.
Defined.
